(** * The Vatican catalogue scraper: document store, extractor, orchestrator

    A shallow embedding of [src/scraper/vatican_scraper.py] (class
    [VaticanScraper]) and the properties of its discovery-and-merge
    pipeline.

    Conventions of the embedding.
    - A Python [str] is a [string]; one [ascii] stands for one character,
      of code point below 256.
    - A value decoded from JSON (and every value the scraper builds) is a
      [value]; a Python [dict] with string keys is a [gmap string value].
      The values of the catalogue form a tree: [json.load] and the dict and
      list literals of the scraper build fresh objects, so that a mutation
      of a stored document is the replacement of the document at its
      position.
    - A Python exception is a constructor of [exn]; a call that can raise
      returns a [result].  Code that mutates [self.documents] before it
      raises is a state transformer [M], so that the catalogue left behind
      by a failed call is part of the model.
    - [datetime.now().isoformat()] is an argument [now] of the function
      that reads the clock, or the field [clock] of the environment [env];
      [requests], [BeautifulSoup], [urljoin], [urlparse], [re.search] and
      [str.title] are seen through the observations the scraper makes of
      them (records [page] and [env]): the theorems hold whatever these
      calls return.  No statement is made of a call of the library that
      raises, nor of a write of the data file that fails once the file is
      open.

    The file has two parts: the embedding of the program, then the
    vocabulary of the specification and the theorems. *)

From stdpp Require Import gmap strings list fin_maps sorting.
From Stdlib Require Import Ascii.

(** ** Python [str] primitives used by the scraper *)

Module PyStr.

(** [str.isspace] on one character: the separators of the first 256
    code points, the set that [str.strip()] removes and that [\s] matches
    in a [str] pattern. *)
Definition is_space (c : ascii) : bool :=
  let n := nat_of_ascii c in
  ((9 <=? n) && (n <=? 13) || (28 <=? n) && (n <=? 32)
   || (n =? 133) || (n =? 160))%nat.

(** [needle in hay] for two strings. *)
Fixpoint contains (needle hay : string) : bool :=
  String.prefix needle hay ||
  match hay with
  | EmptyString => false
  | String _ hay' => contains needle hay'
  end.

(** [s.endswith(suffix)]. *)
Fixpoint endswith (s suffix : string) : bool :=
  String.eqb s suffix ||
  match s with
  | EmptyString => false
  | String _ s' => endswith s' suffix
  end.

(** [s.lstrip()], [s.rstrip()], [s.strip()]. *)
Fixpoint lstrip (s : string) : string :=
  match s with
  | EmptyString => EmptyString
  | String c s' => if is_space c then lstrip s' else s
  end.

Fixpoint rstrip (s : string) : string :=
  match s with
  | EmptyString => EmptyString
  | String c s' =>
      match rstrip s' with
      | EmptyString => if is_space c then EmptyString else String c EmptyString
      | r => String c r
      end
  end.

Definition strip (s : string) : string := rstrip (lstrip s).

(** [re.sub(r'\s+', ' ', s)]: every maximal run of whitespace becomes one
    space.  [in_run] records that the previous character was whitespace. *)
Fixpoint sub_ws (in_run : bool) (s : string) : string :=
  match s with
  | EmptyString => EmptyString
  | String c s' =>
      if is_space c
      then (if in_run then sub_ws true s' else String " " (sub_ws true s'))
      else String c (sub_ws false s')
  end.

(** [s.replace(old, new)] for a non-empty [old]: matches are taken left to
    right and do not overlap.  [skip] counts the characters of the current
    match still to be dropped. *)
Fixpoint replace_from (old new : string) (skip : nat) (s : string) : string :=
  match s with
  | EmptyString => EmptyString
  | String c s' =>
      match skip with
      | S k => replace_from old new k s'
      | O =>
          if String.prefix old s
          then String.append new (replace_from old new (String.length old - 1) s')
          else String c (replace_from old new 0 s')
      end
  end.

Definition replace (old new s : string) : string := replace_from old new 0 s.

(** [s.split(sep)] for a one-character separator; the result is never
    empty, so [s.split(sep)[-1]] cannot raise. *)
Fixpoint split (sep : ascii) (s : string) : list string :=
  match s with
  | EmptyString => [EmptyString]
  | String c s' =>
      if Ascii.eqb c sep then EmptyString :: split sep s'
      else match split sep s' with
           | h :: t => String c h :: t
           | [] => [String c EmptyString]
           end
  end.

Definition last_item (l : list string) : string := List.last l EmptyString.

(** [s[:n]]. *)
Definition slice_to (n : nat) (s : string) : string := String.substring 0 n s.

(** Every character of [s] is whitespace ([s.strip()] is then empty). *)
Fixpoint blank (s : string) : bool :=
  match s with
  | EmptyString => true
  | String c s' => is_space c && blank s'
  end.

End PyStr.

(** ** Values, truthiness, exceptions *)

(** What [json.load] can return, and what the scraper stores.  JSON numbers
    are modelled by the integers. *)
#[warnings="-register-all"]
Inductive value :=
  | VNone
  | VBool (b : bool)
  | VInt (n : Z)
  | VStr (s : string)
  | VList (l : list value)
  | VDict (m : gmap string value).

(** The exceptions that the scraper's own statements can raise, those
    that [json.load] raises on a file that is not JSON text
    ([JSONDecodeError]) or not UTF-8 text ([UnicodeDecodeError]), the one
    that [open] raises on a file that has vanished, and a catch-all for the
    other failures of [open] and [json.load]. *)
Inductive exn :=
  | KeyError (key : string)
  | TypeError
  | AttributeError
  | JSONDecodeError
  | UnicodeDecodeError
  | FileNotFoundError
  | OtherError (name : string).

Inductive result (A : Type) :=
  | Ok (a : A)
  | Raise (e : exn).
Arguments Ok {A} a.
Arguments Raise {A} e.

(** Python's truth value of an object ([if x:], [not x], [x and y]). *)
Definition truthy (v : value) : bool :=
  match v with
  | VNone => false
  | VBool b => b
  | VInt n => negb (n =? 0)%Z
  | VStr s => negb (String.eqb s "")
  | VList l => match l with [] => false | _ => true end
  | VDict m => negb (size m =? 0)%nat
  end.

(** [v == s] for a [str] [s]: only a string with the same characters is
    equal to a string. *)
Definition eq_str (v : value) (s : string) : bool :=
  match v with
  | VStr s' => String.eqb s' s
  | _ => false
  end.

(** [obj[key]] for a string key. *)
Definition subscript (obj : value) (key : string) : result value :=
  match obj with
  | VDict m =>
      match m !! key with
      | Some v => Ok v
      | None => Raise (KeyError key)
      end
  | _ => Raise TypeError
  end.

(** [d.get(key)] and [d.get(key, dflt)] on a dict. *)
Definition get (m : gmap string value) (key : string) : value :=
  default VNone (m !! key).
Definition get_or (m : gmap string value) (key : string) (dflt : value) : value :=
  default dflt (m !! key).

(** [s in container] for a [str] [s]. *)
Definition py_in (s : string) (container : value) : result bool :=
  match container with
  | VList l => Ok (existsb (fun v => eq_str v s) l)
  | VStr t => Ok (PyStr.contains s t)
  | VDict m => Ok (bool_decide (is_Some (m !! s)))
  | _ => Raise TypeError
  end.

(** The items that [for x in obj] visits.  A string yields its characters
    and a dict its keys, all of them strings. *)
Definition chars (s : string) : list value :=
  (fun c => VStr (String c EmptyString)) <$> String.list_ascii_of_string s.

Definition py_iter (obj : value) : result (list value) :=
  match obj with
  | VList l => Ok l
  | VStr s => Ok (chars s)
  | VDict m => Ok (VStr <$> (map_to_list m).*1)
  | _ => Raise TypeError
  end.

(** [len(obj)]. *)
Definition py_len (obj : value) : result nat :=
  match obj with
  | VList l => Ok (List.length l)
  | VStr s => Ok (String.length s)
  | VDict m => Ok (size m)
  | _ => Raise TypeError
  end.

(** ** State and exceptions *)

(** A computation over a mutable state [S] that returns an [A] or raises;
    the state reached is kept in both cases. *)
Definition M (S A : Type) : Type := S → S * result A.

Definition ret {S A} (a : A) : M S A := λ s, (s, Ok a).
Definition bind {S A B} (c : M S A) (k : A → M S B) : M S B :=
  λ s, match c s with
       | (s', Ok a) => k a s'
       | (s', Raise e) => (s', Raise e)
       end.
Definition when {S} (b : bool) (c : M S unit) : M S unit :=
  if b then c else ret tt.

Declare Scope py_scope.
Delimit Scope py_scope with py.
Notation "'let*' x ':=' c 'in' k" := (bind c (λ x, k))
  (at level 10, x pattern, c at level 100, k at level 200) : py_scope.
Notation "c ';;;' k" := (bind c (λ _, k))
  (at level 100, k at level 200, right associativity) : py_scope.

Local Open Scope py_scope.

(** ** The document store *)

(** The catalogue that [load_existing_data] builds when it does not
    return the content of the data file (lines 45-53). *)
Definition default_metadata : gmap string value :=
  <["last_updated" := VNone]>
  (<["pope" := VStr "Leo XIII"]>
  (<["source" := VStr "vatican.va"]>
  (<["total_documents" := VInt 0]> ∅))).

Definition default_catalog : value :=
  VDict (<["metadata" := VDict default_metadata]>
        (<["documents" := VList []]> ∅)).

(** The list held under ["documents"], as the theorems read it. *)
Definition documents_of (c : value) : list value :=
  match c with
  | VDict m => match m !! "documents" with
               | Some (VList l) => l
               | _ => []
               end
  | _ => []
  end.

(** The entry [key] of a stored document. *)
Definition field (d : value) (key : string) : option value :=
  match d with
  | VDict m => m !! key
  | _ => None
  end.

(** [document_exists]: the loop of lines 67-70 over the items of
    [self.documents["documents"]].  The document found is returned with
    its position: the caller mutates that very object of the list. *)
Fixpoint scan (title url : string) (items : list value)
  : result (option (nat * value)) :=
  match items with
  | [] => Ok None
  | doc :: rest =>
      match subscript doc "title" with
      | Raise e => Raise e
      | Ok t =>
          if eq_str t title then Ok (Some (0, doc))
          else
            match subscript doc "url" with
            | Raise e => Raise e
            | Ok u =>
                if eq_str u url then Ok (Some (0, doc))
                else
                  match scan title url rest with
                  | Ok (Some (i, d)) => Ok (Some (S i, d))
                  | r => r
                  end
            end
      end
  end.

Definition document_exists (title url : string) (c : value)
  : result (option (nat * value)) :=
  match subscript c "documents" with
  | Raise e => Raise e
  | Ok docs =>
      match py_iter docs with
      | Raise e => Raise e
      | Ok items => scan title url items
      end
  end.

(** Lines 78-83 on the matched document [existing]. *)
Definition update_urls (url : string) : M (gmap string value) unit :=
  λ existing,
    match existing !! "url" with
    | None => (existing, Raise (KeyError "url"))
    | Some u0 =>
        match py_in url (get_or existing "urls" (VList [u0])) with
        | Raise e => (existing, Raise e)
        | Ok true => (existing, Ok tt)
        | Ok false =>
            let existing1 :=
              match existing !! "urls" with
              | None => <["urls" := VList [u0]]> existing
              | Some _ => existing
              end in
            match existing1 !! "urls" with
            | Some (VList l) =>
                (<["url" := VStr url]>
                   (<["urls" := VList (l ++ [VStr url])]> existing1), Ok tt)
            | _ => (existing1, Raise AttributeError)
            end
        end
    end.

(** Lines 86-87, 88-89 and 95-96: [if x and not existing.get(key):
    existing[key] = x]. *)
Definition update_scalar (key candidate : string) : M (gmap string value) unit :=
  λ existing,
    if truthy (VStr candidate) && negb (truthy (get existing key))
    then (<[key := VStr candidate]> existing, Ok tt)
    else (existing, Ok tt).

(** Lines 90-94. *)
Definition update_languages (language : string) : M (gmap string value) unit :=
  λ existing,
    if truthy (VStr language) then
      match py_in language (get_or existing "languages" (VList [])) with
      | Raise e => (existing, Raise e)
      | Ok true => (existing, Ok tt)
      | Ok false =>
          match existing !! "languages" with
          | None => (<["languages" := VList [VStr language]]> existing, Ok tt)
          | Some (VList l) =>
              (<["languages" := VList (l ++ [VStr language])]> existing, Ok tt)
          | Some _ => (existing, Raise AttributeError)
          end
      end
    else (existing, Ok tt).

(** The update branch, lines 77-96, in the order of the source. *)
Definition update_existing (url doc_type date language description : string)
  : M (gmap string value) unit :=
  update_urls url ;;;
  update_scalar "type" doc_type ;;;
  update_scalar "date" date ;;;
  update_languages language ;;;
  update_scalar "description" description.

(** The dict literal of lines 101-113; [now] is
    [datetime.now().isoformat()]. *)
Definition new_doc (title url doc_type date language description now : string)
  : gmap string value :=
  <["title" := VStr title]>
  (<["url" := VStr url]>
  (<["type" := VStr doc_type]>
  (<["date" := VStr date]>
  (<["language" := VStr language]>
  (<["languages" := VList (if truthy (VStr language)
                           then [VStr language] else [])]>
  (<["description" := VStr description]>
  (<["read" := VBool false]>
  (<["comments" := VStr ""]>
  (<["quotes" := VList []]>
  (<["added_date" := VStr now]> ∅)))))))))).

(** [self.documents["documents"].append(doc)], line 115. *)
Definition append_document (doc : value) : M value unit :=
  λ c,
    match subscript c "documents" with
    | Raise e => (c, Raise e)
    | Ok (VList l) =>
        match c with
        | VDict m => (VDict (<["documents" := VList (l ++ [doc])]> m), Ok tt)
        | _ => (c, Raise TypeError)
        end
    | Ok (VNone | VBool _ | VInt _) => (c, Raise TypeError)
    | Ok (VStr _ | VDict _) => (c, Raise AttributeError)
    end.

(** The object at position [i] of the list is replaced by its mutated
    state. *)
Definition store_document (i : nat) (doc : value) (c : value) : value :=
  match c with
  | VDict m =>
      match m !! "documents" with
      | Some (VList l) => VDict (<["documents" := VList (<[i := doc]> l)]> m)
      | _ => c
      end
  | _ => c
  end.

Definition create_document
    (title url doc_type date language description now : string)
  : M value value :=
  let doc := VDict (new_doc title url doc_type date language description now) in
  append_document doc ;;; ret doc.

(** [add_or_update_document], lines 72-117. *)
Definition add_or_update_document
    (title url doc_type date language description now : string)
  : M value value :=
  λ c,
    match document_exists title url c with
    | Raise e => (c, Raise e)
    | Ok (Some (i, VDict existing)) =>
        if truthy (VDict existing) then
          match update_existing url doc_type date language description existing with
          | (existing', Ok _) =>
              (store_document i (VDict existing') c, Ok (VDict existing'))
          | (existing', Raise e) =>
              (store_document i (VDict existing') c, Raise e)
          end
        else create_document title url doc_type date language description now c
    | Ok (Some (_, existing)) =>
        if truthy existing then (c, Raise AttributeError)
        else create_document title url doc_type date language description now c
    | Ok None =>
        create_document title url doc_type date language description now c
    end.


(** The six texts of a scraped record: the values of the dict that
    [extract_document_info] returns (lines 250-257), and the arguments of
    a call of [add_or_update_document]. *)
Record doc_info := DocInfo {
  info_title : string;
  info_url : string;
  info_type : string;
  info_date : string;
  info_language : string;
  info_description : string
}.

(** [add_or_update_document(title, url, doc_type, date, language,
    description)]: a call that binds the texts of [info] to the parameters
    of line 72, at clock reading [now]. *)
Definition upsert (info : doc_info) (now : string) : M value value :=
  add_or_update_document (info_title info) (info_url info) (info_type info)
    (info_date info) (info_language info) (info_description info) now.

(** A sequence of calls on the same scraper object, each one starting in
    the catalogue that the previous one left. *)
Fixpoint upsert_all (calls : list (doc_info * string)) (c : value) : value :=
  match calls with
  | [] => c
  | (info, now) :: rest => upsert_all rest (upsert info now c).1
  end.

(** ** The metadata extractor and link discovery *)

(** What the scraper observes of a parsed page: for a CSS selector, the
    text of the first element that [soup.select_one] finds, if any; the
    text of the whole page; and the [href] of every link. *)
Record page := Page {
  select_text : string → option string;
  page_text : string;
  hrefs : list string
}.

(** What the scraper observes of the network and of the library calls.
    - [fetch_page url] is the parsed page, or [None] when the request
      fails (lines 119-128).
    - [urljoin base href] is [urllib.parse.urljoin].
    - [url_path url] is [urlparse(url).path].
    - [str_title s] is [s.title()].
    - [re_search pattern text] is [re.search(pattern, text).group(0)], or
      [None] when there is no match.
    - [clock n] is the value of [datetime.now().isoformat()] at tick [n]. *)
Record env := Env {
  fetch_page : string → option page;
  urljoin : string → string → string;
  url_path : string → string;
  str_title : string → string;
  re_search : string → string → option string;
  clock : nat → string
}.

(** Lines 186-195: the text of the first selector whose stripped text is
    not empty, or the empty string. *)
Definition title_selectors : list string :=
  ["h1"; "h2.doc_title"; ".doc_title"; ".title";
   "title"; "h2"; ".content h1"; ".content h2"].

Fixpoint first_title (soup : page) (selectors : list string) : string :=
  match selectors with
  | [] => ""
  | selector :: rest =>
      match select_text soup selector with
      | Some text =>
          if truthy (VStr (PyStr.strip text)) then PyStr.strip text
          else first_title soup rest
      | None => first_title soup rest
      end
  end.

(** Line 198. *)
Definition title_from_url (e : env) (url : string) : string :=
  str_title e
    (PyStr.replace "-" " "
       (PyStr.replace ".html" ""
          (PyStr.last_item (PyStr.split "/" (url_path e url))))).

(** Lines 185-201. *)
Definition extract_title (e : env) (soup : page) (url : string) : string :=
  let title := first_title soup title_selectors in
  let title :=
    if negb (truthy (VStr title)) then title_from_url e url else title in
  PyStr.strip (PyStr.sub_ws false title).

(** Lines 204-212. *)
Definition extract_type (url : string) : string :=
  if PyStr.contains "/encyclicals/" url then "Encyclical"
  else if PyStr.contains "/letters/" url then "Letter"
  else if PyStr.contains "/speeches/" url then "Speech"
  else if PyStr.contains "/apost_letters/" url then "Apostolic Letter"
  else "Unknown".

(** Lines 215-225. *)
Definition extract_language (url : string) : string :=
  if PyStr.contains "/en/" url then "English"
  else if PyStr.contains "/it/" url then "Italian"
  else if PyStr.contains "/fr/" url then "French"
  else if PyStr.contains "/de/" url then "German"
  else if PyStr.contains "/es/" url then "Spanish"
  else "Latin".

(** Lines 228-240. *)
Definition date_patterns : list string :=
  ["(\d{1,2})\s+(\w+)\s+(\d{4})";
   "(\d{4})-(\d{2})-(\d{2})";
   "(\w+)\s+(\d{1,2}),\s+(\d{4})"].

Fixpoint first_date (e : env) (patterns : list string) (text : string) : string :=
  match patterns with
  | [] => ""
  | pattern :: rest =>
      match re_search e pattern text with
      | Some found => found
      | None => first_date e rest text
      end
  end.

(** Lines 243-248, on the text of the first [p] element, if any. *)
Definition extract_description (first_p : option string) : string :=
  match first_p with
  | Some text =>
      let desc_text := PyStr.strip text in
      if (50 <? String.length desc_text)%nat then
        if (200 <? String.length desc_text)%nat
        then String.append (PyStr.slice_to 200 desc_text) "..."
        else desc_text
      else ""
  | None => ""
  end.

(** [extract_document_info], lines 178-257. *)
Definition extract_document_info (e : env) (url : string) : option doc_info :=
  match fetch_page e url with
  | None => None
  | Some soup =>
      Some {| info_title := extract_title e soup url;
              info_url := url;
              info_type := extract_type url;
              info_date := first_date e date_patterns (page_text soup);
              info_language := extract_language url;
              info_description := extract_description (select_text soup "p") |}
  end.

(** The seed pages of lines 133-151. *)
Definition base_url : string := "https://www.vatican.va".

Definition search_urls : list string :=
  (λ path, String.append base_url path) <$>
  ["/content/leo-xiii/en/encyclicals.index.html";
   "/content/leo-xiii/la/encyclicals.index.html";
   "/content/leo-xiii/it/encyclicals.index.html";
   "/content/leo-xiii/en/letters.index.html";
   "/content/leo-xiii/la/letters.index.html";
   "/content/leo-xiii/en/speeches.index.html";
   "/content/leo-xiii/la/speeches.index.html";
   "/content/leo-xiii/en.html";
   "/content/leo-xiii/la.html";
   "/content/leo-xiii/it.html"].

(** The link filter of lines 170-173, for a link found on the seed
    [url]. *)
Definition accepted (url full_url : string) : bool :=
  (PyStr.contains "/leo-xiii/" full_url || PyStr.contains "/leo_xiii/" full_url)
  && PyStr.endswith full_url ".html"
  && negb (PyStr.contains "/index.html" full_url)
  && negb (String.eqb full_url url).

(** [find_pope_leo_pages], lines 153-174: the set of accepted links. *)
Definition links_of (e : env) (url : string) : list string :=
  match fetch_page e url with
  | None => []
  | Some soup => filter (λ full_url, accepted url full_url)
                        (urljoin e url <$> hrefs soup)
  end.

Definition find_pope_leo_pages (e : env) : gset string :=
  list_to_set (mjoin (links_of e <$> search_urls)).

(** ** Persistence and the pipeline orchestrator *)

(** The data file as [load_existing_data] meets it. *)
Inductive file_state :=
  | Absent                 (* [self.data_file.exists()] is false *)
  | Unreadable (e : exn)   (* the file exists; [open] or [json.load] raises [e] *)
  | Holds (data : value).  (* the file exists; [json.load] returns [data] *)

(** The lines of standard output that the specification speaks of. *)
Inductive event :=
  | LoadFailed (e : exn)               (* line 42 *)
  | Saved (n : nat)                    (* line 63 *)
  | Processing (k : nat) (url : string). (* line 272, [k] is [processed + 1] *)

(** The scraper object and its surroundings: [self.documents], the data
    file, the number of clock readings so far, and standard output (most
    recent line last). *)
Record scraper := Scraper {
  documents : value;
  data_file : file_state;
  ticks : nat;
  stdout : list event
}.

(** The [except] clause of line 41. *)
Definition caught_on_load (e : exn) : bool :=
  match e with
  | JSONDecodeError | FileNotFoundError => true
  | _ => false
  end.

(** The body of the [try] of lines 36-40 once the file is open: what
    [json.load] does, then the [print] of line 39, which evaluates
    [len(data.get('documents', []))]. *)
Definition try_load (f : file_state) : result value :=
  match f with
  | Absent => Raise FileNotFoundError
  | Unreadable e => Raise e
  | Holds data =>
      match data with
      | VDict m =>
          match py_len (get_or m "documents" (VList [])) with
          | Ok _ => Ok data
          | Raise e => Raise e
          end
      | _ => Raise AttributeError
      end
  end.

(** [load_existing_data], lines 33-53, with the lines it prints. *)
Definition load_existing_data (f : file_state) : M (list event) value :=
  λ out,
    match f with
    | Absent => (out, Ok default_catalog)
    | _ =>
        match try_load f with
        | Ok data => (out, Ok data)
        | Raise e =>
            if caught_on_load e
            then (out ++ [LoadFailed e], Ok default_catalog)
            else (out, Raise e)
        end
    end.

(** Operations on the scraper object. *)
Definition on_documents {A} (c : M value A) : M scraper A :=
  λ s, let (d, r) := c (documents s) in
       (Scraper d (data_file s) (ticks s) (stdout s), r).

Definition print (ev : event) : M scraper unit :=
  λ s, (Scraper (documents s) (data_file s) (ticks s) (stdout s ++ [ev]), Ok tt).

Definition now (e : env) : M scraper string :=
  λ s, (Scraper (documents s) (data_file s) (S (ticks s)) (stdout s),
        Ok (clock e (ticks s))).

(** Lines 60-61 when the write succeeds: the data file then holds the
    catalogue in memory.  A write that fails once the file is open is
    outside the model. *)
Definition dump : M scraper unit :=
  λ s, (Scraper (documents s) (Holds (documents s)) (ticks s) (stdout s), Ok tt).

(** [self.documents["metadata"][key] = v]. *)
Definition set_metadata (key : string) (v : value) : M value unit :=
  λ c,
    match subscript c "metadata" with
    | Raise e => (c, Raise e)
    | Ok (VDict md) =>
        match c with
        | VDict m => (VDict (<["metadata" := VDict (<[key := v]> md)]> m), Ok tt)
        | _ => (c, Raise TypeError)
        end
    | Ok _ => (c, Raise TypeError)
    end.

(** [len(self.documents["documents"])]. *)
Definition count_documents : M value nat :=
  λ c,
    match subscript c "documents" with
    | Raise e => (c, Raise e)
    | Ok docs => (c, py_len docs)
    end.

(** [save_data], lines 55-63.  In each assignment the right-hand side is
    evaluated before the target. *)
Definition save_data (e : env) : M scraper unit :=
  let* stamp := now e in
  on_documents (set_metadata "last_updated" (VStr stamp)) ;;;
  let* n := on_documents count_documents in
  on_documents (set_metadata "total_documents" (VInt (Z.of_nat n))) ;;;
  dump ;;;
  let* n := on_documents count_documents in
  print (Saved n).

(** The local variables of [scrape_all_documents]. *)
Record counters := Counters {
  processed : nat;
  new_docs : nat;
  updated_docs : nat
}.

(** The dict of lines 250-257 as the keyword arguments that
    [**doc_info] passes: its keys, each with its value. *)
Definition keywords (doc_info : doc_info) : list (string * string) :=
  [("title", info_title doc_info); ("url", info_url doc_info);
   ("type", info_type doc_info); ("date", info_date doc_info);
   ("language", info_language doc_info);
   ("description", info_description doc_info)].

(** The parameters of [add_or_update_document] after [self] (line 72),
    each with its default when it has one. *)
Definition parameters : list (string * option string) :=
  [("title", None); ("url", None); ("doc_type", Some ""); ("date", Some "");
   ("language", Some ""); ("description", Some "")].

(** The value passed under the keyword [name]. *)
Fixpoint keyword (name : string) (kwargs : list (string * string))
  : option string :=
  match kwargs with
  | [] => None
  | (key, v) :: rest => if String.eqb key name then Some v else keyword name rest
  end.

(** The binding of keyword arguments to parameters at a call: each
    parameter takes the value of the keyword of its name, or else its
    default; a parameter left without value raises [TypeError]. *)
Fixpoint bind_parameters (params : list (string * option string))
    (kwargs : list (string * string)) : result (list string) :=
  match params with
  | [] => Ok []
  | (name, default_value) :: rest =>
      match keyword name kwargs, default_value with
      | Some v, _ | None, Some v =>
          match bind_parameters rest kwargs with
          | Ok vs => Ok (v :: vs)
          | Raise x => Raise x
          end
      | None, None => Raise TypeError
      end
  end.

(** A keyword that names no parameter raises [TypeError] (the function
    has no [**kwargs] parameter). *)
Definition bind_keywords (kwargs : list (string * string))
  : result (list string) :=
  if forallb (λ kw, existsb (λ p, String.eqb p.1 kw.1) parameters) kwargs
  then bind_parameters parameters kwargs
  else Raise TypeError.

(** The call of [self.add_or_update_document] with [**doc_info], lines
    278 and 281: the keywords are bound first, and the body runs when the
    binding succeeds, with the clock reading that the creation branch
    takes.  The dict has the key ['type'] where the parameter is
    [doc_type]. *)
Definition add_or_update (e : env) (doc_info : doc_info) : M scraper value :=
  match bind_keywords (keywords doc_info) with
  | Ok [title; url; doc_type; date; language; description] =>
      let* stamp := now e in
      on_documents
        (add_or_update_document title url doc_type date language description
           stamp)
  | Ok _ => λ s, (s, Raise TypeError)
  | Raise x => λ s, (s, Raise x)
  end.

(** Lines 276-282: what [document_exists] finds decides which of the two
    calls runs and which counter is incremented after it. *)
Definition record_candidate (e : env) (doc_info : doc_info) (k : counters)
  : M scraper counters :=
  let* existing :=
    on_documents
      (λ c, (c, document_exists (info_title doc_info) (info_url doc_info) c)) in
  if match existing with
     | Some (_, doc) => truthy doc
     | None => false
     end
  then add_or_update e doc_info ;;;
       ret (Counters (processed k) (new_docs k) (updated_docs k + 1))
  else add_or_update e doc_info ;;;
       ret (Counters (processed k) (new_docs k + 1) (updated_docs k)).

(** Lines 284-288. *)
Definition count_and_checkpoint (e : env) (k : counters) : M scraper counters :=
  let k' := Counters (processed k + 1) (new_docs k) (updated_docs k) in
  when (processed k' mod 10 =? 0)%nat (save_data e) ;;;
  ret k'.

(** One iteration of the loop of lines 271-288. *)
Definition scrape_one (e : env) (url : string) (k : counters)
  : M scraper counters :=
  print (Processing (processed k + 1) url) ;;;
  let* k1 :=
    match extract_document_info e url with
    | Some doc_info => record_candidate e doc_info k
    | None => ret k
    end in
  count_and_checkpoint e k1.

Fixpoint scrape_loop (e : env) (document_urls : list string) (k : counters)
  : M scraper counters :=
  match document_urls with
  | [] => ret k
  | url :: rest =>
      let* k' := scrape_one e url k in
      scrape_loop e rest k'
  end.

(** Lines 267-291 for the list [document_urls]. *)
Definition scrape_urls (e : env) (document_urls : list string)
  : M scraper counters :=
  let* k := scrape_loop e document_urls (Counters 0 0 0) in
  save_data e ;;;
  ret k.

(** [scrape_all_documents].  Line 176 turns the set of links into a list;
    [order] is the enumeration that [list] takes. *)
Definition scrape_all_documents
    (e : env) (order : gset string → list string) : M scraper counters :=
  scrape_urls e (order (find_pope_leo_pages e)).

(** An enumeration of a set lists each member once. *)
Definition enumerates (order : gset string → list string) : Prop :=
  ∀ s, NoDup (order s) ∧ ∀ x, x ∈ order s ↔ x ∈ s.

(** [VaticanScraper(...)] (lines 21-31) and [main]: one run of the program
    on the data file [f]. *)
Definition init (f : file_state) : result scraper :=
  match load_existing_data f [] with
  | (out, Ok data) => Ok (Scraper data f 0 out)
  | (_, Raise e) => Raise e
  end.


(** ** Vocabulary of the specification *)

(** The keys that the update branch of [add_or_update_document] assigns,
    and the scalar ones among them that follow the first-writer-wins
    rule. *)
Definition scrape_keys : list string :=
  ["url"; "urls"; "type"; "date"; "languages"; "description"].
Definition scalar_keys : list string := ["type"; "date"; "description"].

(** The test of line 68 on one stored document. *)
Definition matches (title url : string) (d : value) : bool :=
  match field d "title", field d "url" with
  | Some t, Some u => eq_str t title || eq_str u url
  | Some t, None => eq_str t title
  | None, _ => false
  end.

(** The URLs known for a document, as line 78 reads them:
    [existing.get("urls", [existing["url"]])]. *)
Definition known_urls (d : value) : list value :=
  match field d "urls", field d "url" with
  | Some (VList l), _ => l
  | Some _, _ => []
  | None, Some u => [u]
  | None, None => []
  end.

Definition known_languages (d : value) : list value :=
  match field d "languages" with
  | Some (VList l) => l
  | _ => []
  end.

(** The shape of the documents that the scraper builds: a dict with a
    title and a URL that are strings, whose ["urls"] and ["languages"]
    entries, when present, are lists.  No statement of the update branch
    raises on such a document. *)
Definition list_or_absent (o : option value) : Prop :=
  o = None ∨ ∃ l, o = Some (VList l).

Record shaped_doc (d : value) : Prop := ShapedDoc {
  shaped_title : ∃ t, field d "title" = Some (VStr t);
  shaped_url : ∃ u, field d "url" = Some (VStr u);
  shaped_urls : list_or_absent (field d "urls");
  shaped_languages : list_or_absent (field d "languages")
}.

(** The shape of a catalogue: the two sections of the data file, with a
    dict of metadata and a list of shaped documents. *)
Definition shaped (c : value) : Prop :=
  ∃ m md l, c = VDict m ∧ m !! "metadata" = Some (VDict md)
            ∧ m !! "documents" = Some (VList l) ∧ Forall shaped_doc l.

(** The document that the update branch leaves in place of [d]. *)
Definition merged (info : doc_info) (d : value) : value :=
  match d with
  | VDict e =>
      VDict (update_existing (info_url info) (info_type info) (info_date info)
               (info_language info) (info_description info) e).1
  | _ => d
  end.

(** The document that the creation branch appends. *)
Definition created (info : doc_info) (now : string) : value :=
  VDict (new_doc (info_title info) (info_url info) (info_type info)
           (info_date info) (info_language info) (info_description info) now).

(** The documents after a call of [upsert] on a shaped catalogue. *)
Definition upserted (info : doc_info) (now : string) (l : list value)
  : list value :=
  match list_find (λ d, matches (info_title info) (info_url info) d) l with
  | Some (i, d) => <[i := merged info d]> l
  | None => l ++ [created info now]
  end.

(** The catalogue [c] with the list [l] under ["documents"]. *)
Definition with_documents (l : list value) (c : value) : value :=
  match c with
  | VDict m => VDict (<["documents" := VList l]> m)
  | _ => c
  end.

Fixpoint upserted_all (calls : list (doc_info * string)) (l : list value)
  : list value :=
  match calls with
  | [] => l
  | (info, now) :: rest => upserted_all rest (upserted info now l)
  end.


(** The current URL of [d] is one of its known URLs. *)
Definition url_known (d : value) : Prop :=
  ∃ u, field d "url" = Some (VStr u) ∧ VStr u ∈ known_urls d.

(** [url] is among the known URLs of [d] (the test of line 78). *)
Definition knows_url (url : string) (d : value) : bool :=
  existsb (λ v, eq_str v url) (known_urls d).





(** C5 as the specification words it: every stored document has an
    ["urls"] entry, and its ["url"] is a member of it. *)
Definition urls_entry_holds_url (calls : list (doc_info * string)) : Prop :=
  ∀ d, d ∈ documents_of (upsert_all calls default_catalog) →
       ∃ l u, field d "urls" = Some (VList l) ∧ field d "url" = Some u ∧ u ∈ l.

(** C4 as the specification words it: when the call matches the document
    at position [i] and promotes a new URL, a later [document_exists] with
    any of the older URLs still finds the document at position [i]. *)
Definition older_urls_resolve (info : doc_info) (now : string) (c : value)
  : Prop :=
  ∀ i d old title,
    document_exists (info_title info) (info_url info) c = Ok (Some (i, d)) →
    knows_url (info_url info) d = false →
    VStr old ∈ known_urls d →
    ∃ d', document_exists title old (upsert info now c).1 = Ok (Some (i, d')).

(** The document that a call of [upsert] on a shaped catalogue returns. *)
Definition returned (info : doc_info) (now : string) (l : list value) : value :=
  match list_find (λ d, matches (info_title info) (info_url info) d) l with
  | Some (_, d) => merged info d
  | None => created info now
  end.

(** The catalogue that [save_data] leaves and writes at clock reading
    [stamp]. *)
Definition stamped (stamp : string) (c : value) : value :=
  match c with
  | VDict m =>
      match m !! "metadata" with
      | Some (VDict md) =>
          VDict (<["metadata" :=
                     VDict (<["total_documents" :=
                                VInt (Z.of_nat (length (documents_of c)))]>
                            (<["last_updated" := VStr stamp]> md))]> m)
      | _ => c
      end
  | _ => c
  end.

(** The candidate numbers after which a line [Saved] was printed: for each
    such line of [out], the number of [Processing] lines before it, counted
    from [seen]. *)
Fixpoint save_points (seen : nat) (out : list event) : list nat :=
  match out with
  | [] => []
  | Saved _ :: rest => seen :: save_points seen rest
  | Processing _ _ :: rest => save_points (S seen) rest
  | LoadFailed _ :: rest => save_points seen rest
  end.

(** The multiples of ten among [p + 1, ..., p + n]. *)
Definition tenths (p n : nat) : list nat :=
  filter (λ x, x mod 10 = 0) (seq (p + 1) n).

(** [s] starts with a whitespace character. *)
Definition starts_ws (s : string) : bool :=
  match s with
  | String a _ => PyStr.is_space a
  | EmptyString => false
  end.

(** [s] has no run of whitespace: no two adjacent characters of [s] are
    both whitespace. *)
Fixpoint ws_run_free (s : string) : bool :=
  match s with
  | String a s' => negb (PyStr.is_space a && starts_ws s') && ws_run_free s'
  | EmptyString => true
  end.

(** The final path segment of [url] with [".html"] removed and hyphens
    replaced by spaces: the text that line 198 title-cases. *)
Definition url_stem (e : env) (url : string) : string :=
  PyStr.replace "-" " "
    (PyStr.replace ".html" ""
       (PyStr.last_item (PyStr.split "/" (url_path e url)))).

(** Some title selector finds text that is not blank. *)
Definition has_heading (soup : page) : Prop :=
  ∃ selector text,
    selector ∈ title_selectors ∧ select_text soup selector = Some text ∧
    PyStr.blank text = false.

(** C10 as the claim words it: for every candidate URL that the link
    filter accepts and whose page can be fetched, the extracted title is
    not empty and has no run of whitespace. *)
Definition title_never_empty : Prop :=
  ∀ e seed url info,
    accepted seed url = true →
    extract_document_info e url = Some info →
    info_title info ≠ "" ∧ ws_run_free (info_title info) = true.

(** [d.get(key)] on a stored document. *)
Definition get_field (d : value) (key : string) : value :=
  default VNone (field d key).

(** The guard of lines 86, 88 and 95 is false: the candidate is empty or
    the stored value is not. *)
Definition kept (candidate : string) (stored : value) : bool :=
  negb (truthy (VStr candidate)) || truthy stored.

(** The guard of line 90 is false. *)
Definition knows_language (language : string) (d : value) : bool :=
  negb (truthy (VStr language))
  || existsb (λ v, eq_str v language) (known_languages d).

(** No guard of the update branch fires for [info] on [d]. *)
Definition absorbs (info : doc_info) (d : value) : bool :=
  knows_url (info_url info) d
  && kept (info_type info) (get_field d "type")
  && kept (info_date info) (get_field d "date")
  && knows_language (info_language info) d
  && kept (info_description info) (get_field d "description").

(** The data file is present but malformed: [json.load] fails on it,
    because its text is not JSON or because its bytes are not UTF-8
    text. *)
Definition malformed (f : file_state) : Prop :=
  f = Unreadable JSONDecodeError ∨ f = Unreadable UnicodeDecodeError.

(** C8 as the specification words it: whether the data file is absent or
    malformed, the scraper is built with the empty default catalogue. *)
Definition load_always_recovers : Prop :=
  ∀ f, f = Absent ∨ malformed f →
       ∃ s, init f = Ok s ∧ documents s = default_catalog.

(** ** Sample data for the worked examples *)

Module Sample.

Definition url_rerum_en : string :=
  "https://www.vatican.va/content/leo-xiii/en/encyclicals/documents/hf_l-xiii_enc_15051891_rerum-novarum.html".
Definition url_rerum_la : string :=
  "https://www.vatican.va/content/leo-xiii/la/encyclicals/documents/hf_l-xiii_enc_15051891_rerum-novarum.html".
Definition url_aeterni_en : string :=
  "https://www.vatican.va/content/leo-xiii/en/encyclicals/documents/hf_l-xiii_enc_04081879_aeterni-patris.html".

(** The English page of Rerum Novarum. *)
Definition rerum_en : doc_info :=
  DocInfo "Rerum Novarum" url_rerum_en "Encyclical" "15 May 1891" "English" "".

(** Its Latin page, under the same title. *)
Definition rerum_la : doc_info :=
  DocInfo "Rerum Novarum" url_rerum_la "Encyclical" "" "Latin" "".

(** Aeterni Patris. *)
Definition aeterni_en : doc_info :=
  DocInfo "Aeterni Patris" url_aeterni_en "Encyclical" "4 August 1879" "English" "".


(** A record for the English page of Rerum Novarum that supplies another
    type, date and description. *)
Definition rerum_as_letter : doc_info :=
  DocInfo "Rerum Novarum" url_rerum_en "Letter" "1 January 1900" "English"
    "A later description".

Definition t0 : string := "2025-01-01T00:00:00".
Definition t1 : string := "2025-01-02T00:00:00".

(** The stored English page once the reader has marked it read and
    commented on it, and the catalogue that holds it. *)
Definition annotated_doc : value :=
  VDict (<["read" := VBool true]>
         (<["comments" := VStr "x"]>
          (new_doc "Rerum Novarum" url_rerum_en "Encyclical" "15 May 1891"
             "English" "" t0))).

Definition annotated : value := with_documents [annotated_doc] default_catalog.

(** A paragraph of 250 characters between blanks, and one of 30. *)
Definition text250 : string :=
  String.concat "" (replicate 25 "0123456789").
Definition text30 : string :=
  String.concat "" (replicate 3 "0123456789").

(** A page with a heading and a long first paragraph. *)
Definition rerum_page : page :=
  {| select_text := λ selector,
       if String.eqb selector "h1" then Some "  Rerum   Novarum "
       else if String.eqb selector "p"
            then Some (String.append "  " (String.append text250 " "))
            else None;
     page_text := "Rerum Novarum 15 May 1891";
     hrefs := [] |}.

(** A page on which no selector finds text. *)
Definition bare_page : page :=
  {| select_text := λ _, None; page_text := ""; hrefs := [] |}.

(** [s.title()] for a text of ASCII characters: a letter is upper-cased
    when the character before it is no letter and lower-cased
    otherwise. *)
Definition is_upper (c : ascii) : bool :=
  let n := nat_of_ascii c in ((65 <=? n) && (n <=? 90))%nat.
Definition is_lower (c : ascii) : bool :=
  let n := nat_of_ascii c in ((97 <=? n) && (n <=? 122))%nat.
Definition to_upper (c : ascii) : ascii :=
  if is_lower c then ascii_of_nat (nat_of_ascii c - 32) else c.
Definition to_lower (c : ascii) : ascii :=
  if is_upper c then ascii_of_nat (nat_of_ascii c + 32) else c.

Fixpoint title_from (prev_cased : bool) (s : string) : string :=
  match s with
  | EmptyString => EmptyString
  | String c s' =>
      if is_upper c || is_lower c
      then String (if prev_cased then to_lower c else to_upper c)
                  (title_from true s')
      else String c (title_from false s')
  end.

Definition ascii_title (s : string) : string := title_from false s.

(** [urlparse(url).path] for the URLs of the examples, which have the
    form [https://host/path] without query, fragment or parameters: the
    text from the third slash on. *)
Fixpoint from_slash (n : nat) (s : string) : string :=
  match s with
  | EmptyString => EmptyString
  | String a s' =>
      if Ascii.eqb a "/"
      then match n with
           | O => s
           | S n' => from_slash n' s'
           end
      else from_slash n s'
  end.

Definition path_of (url : string) : string := from_slash 2 url.

(** The library calls on the texts of the examples, with a network that
    serves the pages [fetch]: one that serves [rerum_page] at every URL,
    one that serves [bare_page], and one on which every request fails. *)
Definition library (fetch : string → option page) : env :=
  {| fetch_page := fetch;
     urljoin := λ _ href, href;
     url_path := path_of;
     str_title := ascii_title;
     re_search := λ _ _, None;
     clock := λ _, t0 |}.

Definition online : env := library (λ _, Some rerum_page).
Definition bare : env := library (λ _, Some bare_page).
Definition offline : env := library (λ _, None).

(** Twenty-five candidate URLs. *)
Definition urls25 : list string :=
  (λ n, String.append "https://www.vatican.va/content/leo-xiii/en/letters/documents/"
          (String.append (String (ascii_of_nat (65 + n)) "") ".html"))
  <$> seq 0 25.

(** The scraper built when there is no data file. *)
Definition fresh : scraper := Scraper default_catalog Absent 0 [].

(** A link that the filter accepts and whose final path segment is
    [".html"], and the seed page on which it is found. *)
Definition seed_en : string := "https://www.vatican.va/content/leo-xiii/en.html".
Definition url_dot_html : string := "https://www.vatican.va/content/leo-xiii/.html".

(** A source with two pages of Rerum Novarum linked from one seed page.
    The English page is headed by its genre, the Latin page by the title. *)
Definition index_page : page :=
  {| select_text := λ _, None; page_text := "";
     hrefs := [url_rerum_en; url_rerum_la] |}.

Definition headed (heading : string) : page :=
  {| select_text := λ selector,
       if String.eqb selector "h1" then Some heading else None;
     page_text := ""; hrefs := [] |}.

Definition retitled : env :=
  library (λ url,
    if String.eqb url seed_en then Some index_page
    else if String.eqb url url_rerum_en then Some (headed "Encyclical Letter")
    else if String.eqb url url_rerum_la then Some (headed "Rerum Novarum")
    else None).

(** A data file that holds one document, the English page of Rerum
    Novarum under its title, as [save_data] writes it. *)
Definition earlier : value :=
  stamped t0 (with_documents [created rerum_en t0] default_catalog).


End Sample.
(** The entry [key] of the metadata of a catalogue. *)
Definition metadata_of (c : value) (key : string) : option value :=
  match field c "metadata" with
  | Some md => field md key
  | None => None
  end.

(** Lines 57-58 of [save_data]: the two assignments to the metadata,
    before the data file is opened. *)
Definition update_metadata (e : env) : M scraper unit :=
  let* stamp := now e in
  on_documents (set_metadata "last_updated" (VStr stamp)) ;;;
  let* n := on_documents count_documents in
  on_documents (set_metadata "total_documents" (VInt (Z.of_nat n))).

(** [s] ends with a whitespace character. *)
Fixpoint ends_ws (s : string) : bool :=
  match s with
  | EmptyString => false
  | String a EmptyString => PyStr.is_space a
  | String _ s' => ends_ws s'
  end.

(** Every whitespace character of [s] is the space. *)
Fixpoint only_spaces (s : string) : bool :=
  match s with
  | EmptyString => true
  | String a s' =>
      (negb (PyStr.is_space a) || Ascii.eqb a " ") && only_spaces s'
  end.

(** More sample data: a page whose [.title] element is blank and whose
    [title] and [h2] elements have text, served at every URL; and a
    network on which only the ISO date pattern has a match. *)
Module Sample2.

Definition late_heading : page :=
  {| select_text := λ selector,
       if String.eqb selector ".title" then Some " "
       else if String.eqb selector "title" then Some " Rerum  Novarum "
       else if String.eqb selector "h2" then Some "Leo XIII"
       else None;
     page_text := ""; hrefs := [] |}.

Definition late : env := Sample.library (λ _, Some late_heading).

Definition iso_dated : env :=
  {| fetch_page := λ _, Some Sample.rerum_page;
     urljoin := λ _ href, href;
     url_path := Sample.path_of;
     str_title := Sample.ascii_title;
     re_search := λ pattern _,
       if String.eqb pattern "(\d{4})-(\d{2})-(\d{2})"
       then Some "1891-05-15" else None;
     clock := λ _, Sample.t0 |}.

End Sample2.

(** ** Properties of the document store *)

(** Side conditions on keys. *)
Ltac not_scrape_key :=
  let H := fresh "Hkey" in
  unfold scrape_keys; rewrite !elem_of_cons, elem_of_nil; intros H;
  repeat (destruct H as [H|H]; [discriminate H|]); exact H.

Ltac split_scalar_key H :=
  unfold scalar_keys in H; rewrite !elem_of_cons, elem_of_nil in H;
  destruct H as [->|[->|[->|[]]]]; by repeat split.

Section Store.

Implicit Types (c : value) (e : gmap string value) (l : list value).

Lemma scan_lookup title url l i d :
  scan title url l = Ok (Some (i, d)) → l !! i = Some d.
Proof.
  revert i. induction l as [|doc rest IH]; intros i; simpl; [done|].
  repeat case_match; intros; simplify_eq; try done.
  simpl. by apply IH.
Qed.

Lemma scan_is_dict title url l i d :
  scan title url l = Ok (Some (i, d)) → ∃ e, d = VDict e.
Proof.
  revert i. induction l as [|doc rest IH]; intros i; simpl; [done|].
  unfold subscript.
  repeat case_match; intros; simplify_eq; eauto.
Qed.

Lemma update_scalar_frame key candidate e k :
  k ≠ key → (update_scalar key candidate e).1 !! k = e !! k.
Proof.
  intros. unfold update_scalar. case_match; simpl; [|done].
  by rewrite lookup_insert_ne.
Qed.

Lemma update_urls_frame url e k :
  k ≠ "url" → k ≠ "urls" → (update_urls url e).1 !! k = e !! k.
Proof.
  intros. unfold update_urls.
  repeat case_match; simpl; simplify_eq; rewrite ?lookup_insert_ne; done.
Qed.

Lemma update_languages_frame language e k :
  k ≠ "languages" → (update_languages language e).1 !! k = e !! k.
Proof.
  intros. unfold update_languages.
  repeat case_match; simpl; simplify_eq; rewrite ?lookup_insert_ne; done.
Qed.

Lemma bind_fst {S A B} (m : M S A) (k : A → M S B) (P : S → S → Prop) s :
  (∀ s1, P s1 s1) →
  (∀ s1 s2 s3, P s1 s2 → P s2 s3 → P s1 s3) →
  P s (m s).1 → (∀ a s', P s' (k a s').1) → P s (bind m k s).1.
Proof.
  intros Hrefl Htrans Hm Hk. unfold bind.
  destruct (m s) as [s' [a|x]]; simpl in *; [|done].
  eapply Htrans; [exact Hm|apply Hk].
Qed.

Lemma update_existing_frame url doc_type date language description e k :
  k ∉ scrape_keys →
  (update_existing url doc_type date language description e).1 !! k = e !! k.
Proof.
  intros Hk. unfold scrape_keys in Hk.
  assert (k ≠ "url" ∧ k ≠ "urls" ∧ k ≠ "type" ∧ k ≠ "date"
          ∧ k ≠ "languages" ∧ k ≠ "description") as (?&?&?&?&?&?).
  { repeat split; intros ->; apply Hk; rewrite !elem_of_cons; auto 10. }
  unfold update_existing.
  repeat (apply (bind_fst _ _ (λ e1 e2, e2 !! k = e1 !! k));
          [done | by intros ??? -> -> | | intros _ ?]);
    auto using update_urls_frame, update_scalar_frame, update_languages_frame.
Qed.

Lemma documents_of_store_document i d c :
  documents_of (store_document i d c) = <[i := d]> (documents_of c).
Proof.
  unfold store_document, documents_of.
  repeat case_match; simplify_eq; try done;
    rewrite lookup_insert_eq in *; by simplify_eq.
Qed.

Lemma scan_strings title url (ss : list string) :
  scan title url (VStr <$> ss) = Ok None ∨ ∃ x, scan title url (VStr <$> ss) = Raise x.
Proof. destruct ss; simpl; eauto. Qed.

Lemma document_exists_lookup title url c i d :
  document_exists title url c = Ok (Some (i, d)) →
  documents_of c !! i = Some d.
Proof.
  unfold document_exists, subscript, documents_of, py_iter, chars.
  repeat case_match; intros; simplify_eq; eauto using scan_lookup.
  - destruct (scan_strings title url
                ((λ a, String a "") <$> String.list_ascii_of_string s)) as [Hs|[? Hs]];
      rewrite <- list_fmap_compose in Hs; unfold compose in Hs; congruence.
  - destruct (scan_strings title url (map_to_list m0).*1) as [Hs|[? Hs]];
      congruence.
Qed.

(** What [append_document] and [create_document] leave behind. *)
Lemma append_document_spec doc c c' r :
  append_document doc c = (c', r) →
  (r = Ok tt ∧ documents_of c' = (documents_of c ++ [doc])%list) ∨
  ((∃ x, r = Raise x) ∧ c' = c).
Proof.
  unfold append_document, subscript, documents_of.
  repeat case_match; intros; simplify_eq; eauto;
    rewrite lookup_insert_eq in *; simplify_eq; eauto.
Qed.

Lemma create_document_spec title url doc_type date language description now c c' r :
  create_document title url doc_type date language description now c = (c', r) →
  let doc := VDict (new_doc title url doc_type date language description now) in
  (r = Ok doc ∧ documents_of c' = (documents_of c ++ [doc])%list) ∨
  ((∃ x, r = Raise x) ∧ c' = c).
Proof.
  unfold create_document, bind, ret.
  destruct (append_document _ c) as [c1 r1] eqn:Happ.
  apply append_document_spec in Happ as [[-> ?]|[[x ->] ->]];
    intros; simplify_eq; eauto.
Qed.

(** A call of [add_or_update_document], whatever its outcome, keeps every
    stored document in its place and changes no entry outside
    [scrape_keys]. *)
Lemma add_or_update_document_frame
    title url doc_type date language description now c c' r i d :
  add_or_update_document title url doc_type date language description now c
    = (c', r) →
  documents_of c !! i = Some d →
  ∃ d', documents_of c' !! i = Some d' ∧
        ∀ k, k ∉ scrape_keys → field d' k = field d k.
Proof.
  unfold add_or_update_document. intros Hrun Hi.
  destruct (document_exists title url c) as [[[j dj]|]|x] eqn:Hex;
    [| |simplify_eq; eauto].
  - apply document_exists_lookup in Hex.
    assert (∀ e', ∃ d', documents_of (store_document j (VDict e') c) !! i = Some d'
              ∧ (i ≠ j → d' = d) ∧ (i = j → d' = VDict e')) as Hstore.
    { intros e'. rewrite documents_of_store_document.
      destruct (decide (i = j)) as [->|Hne].
      - exists (VDict e'). rewrite list_lookup_insert_eq; [done|].
        by eapply lookup_lt_Some.
      - exists d. by rewrite list_lookup_insert_ne. }
    assert (∀ c1 r1, create_document title url doc_type date language
                       description now c = (c1, r1) →
              ∃ d', documents_of c1 !! i = Some d' ∧
                    ∀ k, k ∉ scrape_keys → field d' k = field d k) as Hcreate.
    { intros c1 r1 Hc. apply create_document_spec in Hc as [[_ Hd]|[_ ->]]; [|eauto].
      exists d. rewrite Hd, lookup_app_l; [done|]. by eapply lookup_lt_Some. }
    destruct dj as [| | | | |existing]; simpl in Hrun;
      try (repeat case_match; simplify_eq; eauto; fail).
    case_match; [|eauto].
    destruct (update_existing _ _ _ _ _ existing) as [existing' r'] eqn:Hup.
    destruct (Hstore existing') as (d' & Hd' & Hne & Heq).
    exists d'. split; [by destruct r'; simplify_eq|].
    intros k Hk. destruct (decide (i = j)) as [->|]; [|by rewrite Hne].
    rewrite Heq by done. simplify_eq. simpl.
    by rewrite <- (update_existing_frame url doc_type date language
                     description existing k Hk), Hup.
  - apply create_document_spec in Hrun as [[_ Hd]|[_ ->]]; [|eauto].
    exists d. rewrite Hd, lookup_app_l; [done|]. by eapply lookup_lt_Some.
Qed.

(** C1. A merge through [add_or_update_document] leaves the entries
    [read], [comments] and [quotes] of every document already in the
    catalogue as they were: the document stays at its position and the
    three entries are the same before and after the call, whether the call
    creates a document, updates one or raises. *)
Theorem user_fields_untouched
    title url doc_type date language description now c c' r i d :
  add_or_update_document title url doc_type date language description now c
    = (c', r) →
  documents_of c !! i = Some d →
  ∃ d', documents_of c' !! i = Some d' ∧
        field d' "read" = field d "read" ∧
        field d' "comments" = field d "comments" ∧
        field d' "quotes" = field d "quotes".
Proof.
  intros Hrun Hi.
  destruct (add_or_update_document_frame _ _ _ _ _ _ _ _ _ _ _ _ Hrun Hi)
    as (d' & Hd' & Hframe).
  exists d'. split; [done|].
  repeat split; apply Hframe; not_scrape_key.
Qed.

Lemma user_fields_untouched_witness :
  ∃ d', documents_of (upsert Sample.rerum_as_letter Sample.t1 Sample.annotated).1
          !! 0 = Some d' ∧
        field d' "read" = field Sample.annotated_doc "read" ∧
        field d' "comments" = field Sample.annotated_doc "comments" ∧
        field d' "quotes" = field Sample.annotated_doc "quotes".
Proof.
  apply (user_fields_untouched
           "Rerum Novarum" Sample.url_rerum_en "Letter" "1 January 1900"
           "English" "A later description" Sample.t1 Sample.annotated
           (upsert Sample.rerum_as_letter Sample.t1 Sample.annotated).1
           (upsert Sample.rerum_as_letter Sample.t1 Sample.annotated).2
           0 Sample.annotated_doc).
  - apply surjective_pairing.
  - vm_compute; reflexivity.
Defined.

Lemma update_scalar_keeps key candidate e k v :
  e !! k = Some v → truthy v = true →
  (update_scalar key candidate e).1 !! k = Some v.
Proof.
  intros Hk Hv. unfold update_scalar, get.
  destruct (decide (k = key)) as [->|].
  - rewrite Hk. simpl. rewrite Hv. by rewrite andb_false_r.
  - case_match; simpl; [|done]. by rewrite lookup_insert_ne.
Qed.

Lemma update_existing_keeps url doc_type date language description e k v :
  k ∈ scalar_keys → e !! k = Some v → truthy v = true →
  (update_existing url doc_type date language description e).1 !! k = Some v.
Proof.
  intros Hk He Hv. revert He.
  assert (k ≠ "url" ∧ k ≠ "urls" ∧ k ≠ "languages") as (?&?&?).
  { split_scalar_key Hk. }
  unfold update_existing.
  repeat (apply (bind_fst _ _ (λ e1 e2, e1 !! k = Some v → e2 !! k = Some v));
          [done | by eauto | | intros _ ?]).
  - by rewrite update_urls_frame.
  - intros. by apply update_scalar_keeps.
  - intros. by apply update_scalar_keeps.
  - by rewrite update_languages_frame.
  - intros. by apply update_scalar_keeps.
Qed.

Lemma add_or_update_document_keeps
    title url doc_type date language description now c i d k v :
  k ∈ scalar_keys →
  documents_of c !! i = Some d → field d k = Some v → truthy v = true →
  ∃ d', documents_of
          (add_or_update_document title url doc_type date language
             description now c).1 !! i = Some d'
        ∧ field d' k = Some v.
Proof.
  intros Hk Hi Hf Hv. unfold add_or_update_document.
  assert (∃ d', documents_of
             (create_document title url doc_type date language description
                now c).1 !! i = Some d' ∧ field d' k = Some v) as Hcreate.
  { destruct (create_document _ _ _ _ _ _ _ c) as [c1 r1] eqn:Hc.
    apply create_document_spec in Hc as [[_ Hd]|[_ ->]]; simpl; [|eauto].
    exists d. rewrite Hd, lookup_app_l; [done|]. by eapply lookup_lt_Some. }
  destruct (document_exists title url c) as [[[j dj]|]|x] eqn:Hex;
    [| |simpl; eauto]; [|done].
  apply document_exists_lookup in Hex.
  destruct dj as [| | | | |existing];
    try (simpl; repeat case_match; simpl; eauto; fail).
  case_match; [|done].
  destruct (update_existing _ _ _ _ _ existing) as [existing' r'] eqn:Hup.
  assert (documents_of (store_document j (VDict existing') c) !! i
          = Some (if decide (i = j) then VDict existing' else d)) as Hst.
  { rewrite documents_of_store_document. case_decide as Hij.
    - subst. rewrite list_lookup_insert_eq; [done|]. by eapply lookup_lt_Some.
    - by rewrite list_lookup_insert_ne. }
  eexists. split; [destruct r'; exact Hst|].
  case_decide; [|done]. simplify_eq. simpl in *.
  by rewrite <- (update_existing_keeps url doc_type date language
                   description existing k v Hk Hf Hv), Hup.
Qed.

(** C2. First writer wins: once the entry [type], [date] or
    [description] of a stored document holds a non-empty (truthy) value,
    every later call of [add_or_update_document], in any number and with
    any arguments, leaves that entry as it is. *)
Theorem first_writer_wins calls c i d k v :
  k ∈ scalar_keys →
  documents_of c !! i = Some d → field d k = Some v → truthy v = true →
  ∃ d', documents_of (upsert_all calls c) !! i = Some d' ∧ field d' k = Some v.
Proof.
  intros Hk. revert c d.
  induction calls as [|[info now] rest IH]; intros c d Hi Hf Hv; simpl.
  - eauto.
  - destruct (add_or_update_document_keeps (info_title info) (info_url info)
                (info_type info) (info_date info) (info_language info)
                (info_description info) now c i d k v) as (d1 & Hi1 & Hf1);
      try done.
    by eapply IH.
Qed.

Lemma first_writer_wins_witness :
  ∃ d', documents_of
          (upsert_all [(Sample.rerum_as_letter, Sample.t1)] Sample.annotated)
          !! 0 = Some d' ∧
        field d' "type" = Some (VStr "Encyclical").
Proof.
  apply (first_writer_wins [(Sample.rerum_as_letter, Sample.t1)]
           Sample.annotated 0 Sample.annotated_doc "type" (VStr "Encyclical")).
  - unfold scalar_keys. constructor.
  - vm_compute; reflexivity.
  - vm_compute; reflexivity.
  - reflexivity.
Defined.

(** *** Calls on a shaped catalogue *)

Lemma scan_list_find title url l :
  Forall shaped_doc l →
  scan title url l = Ok (list_find (λ d, matches title url d) l).
Proof.
  induction 1 as [|d l [[t Ht] [u Hu] _ _] _ IH]; [done|].
  destruct d as [| | | | |e]; try done. simpl in *.
  unfold matches. simpl. rewrite Ht, Hu, IH. simpl.
  destruct (String.eqb t title); simpl; [done|].
  destruct (String.eqb u url); simpl; [done|].
  by destruct (list_find _ l) as [[??]|].
Qed.

Lemma document_exists_shaped title url c :
  shaped c →
  document_exists title url c
  = Ok (list_find (λ d, matches title url d) (documents_of c)).
Proof.
  intros (m & md & l & -> & _ & Hl & Hall).
  unfold document_exists, documents_of. simpl. rewrite Hl. simpl.
  by apply scan_list_find.
Qed.

Lemma shaped_doc_truthy e : shaped_doc (VDict e) → truthy (VDict e) = true.
Proof.
  intros [[t Ht] _ _ _]. simpl in *.
  destruct (size e =? 0)%nat eqn:Hs; [|done].
  apply Nat.eqb_eq, map_size_empty_iff in Hs. by subst.
Qed.

(** The three steps of the update branch on a shaped document. *)
Lemma update_urls_shaped url e :
  shaped_doc (VDict e) →
  ∃ e', update_urls url e = (e', Ok tt) ∧ shaped_doc (VDict e')
        ∧ known_urls (VDict e')
          = (if existsb (λ v, eq_str v url) (known_urls (VDict e))
             then known_urls (VDict e)
             else known_urls (VDict e) ++ [VStr url])%list
        ∧ e' !! "url"
          = (if existsb (λ v, eq_str v url) (known_urls (VDict e))
             then e !! "url" else Some (VStr url)).
Proof.
  intros [[t Ht] [u Hu] Hurls Hlang]. simpl in *.
  unfold update_urls, known_urls, get_or. simpl. rewrite Hu.
  destruct Hurls as [Hn|[l Hl]].
  - rewrite Hn. simpl. rewrite orb_false_r.
    destruct (String.eqb u url) eqn:Heq.
    + eexists. split; [done|]. rewrite Hn, Hu. repeat split; eauto.
      by left.
    + rewrite lookup_insert_eq. eexists. split; [done|].
      split; [|by simplify_map_eq].
      split; simpl; simplify_map_eq; eauto. right; eauto.
  - rewrite Hl. simpl.
    destruct (existsb _ l) eqn:Hex.
    + eexists. split; [done|]. rewrite Hl, Hu. repeat split; eauto.
      right; eauto.
    + rewrite Hl. eexists. split; [done|].
      split; [|by simplify_map_eq].
      split; simpl; simplify_map_eq; eauto. right; eauto.
Qed.

Lemma update_scalar_shaped key candidate e :
  key ∈ scalar_keys → shaped_doc (VDict e) →
  ∃ e', update_scalar key candidate e = (e', Ok tt) ∧ shaped_doc (VDict e')
        ∧ known_urls (VDict e') = known_urls (VDict e)
        ∧ e' !! "url" = e !! "url".
Proof.
  intros Hkey [Ht Hu Hurls Hlang]. unfold update_scalar.
  assert (key ≠ "title" ∧ key ≠ "url" ∧ key ≠ "urls" ∧ key ≠ "languages")
    as (?&?&?&?).
  { split_scalar_key Hkey. }
  case_match; eexists; (split; [done|]); [|done].
  unfold known_urls. simpl in *.
  split; [split; simpl|]; rewrite ?lookup_insert_ne by done; done.
Qed.

Lemma update_languages_shaped language e :
  shaped_doc (VDict e) →
  ∃ e', update_languages language e = (e', Ok tt) ∧ shaped_doc (VDict e')
        ∧ known_urls (VDict e') = known_urls (VDict e)
        ∧ e' !! "url" = e !! "url".
Proof.
  intros Hs. pose proof Hs as [Ht Hu Hurls Hlang].
  unfold update_languages, get_or. simpl in *.
  case_match; [|by eauto].
  destruct Hlang as [Hn|[l Hl]].
  - rewrite Hn. simpl. eexists. split; [done|].
    unfold known_urls. simpl.
    split; [split; simpl|]; rewrite ?lookup_insert_ne by done; try done.
    rewrite lookup_insert_eq. right; eauto.
  - rewrite Hl. simpl. case_match.
    + eexists. split; [done|]. split; [|done]. split; simpl; eauto.
      right; eauto.
    + eexists. split; [done|].
      unfold known_urls. simpl.
      split; [split; simpl|]; rewrite ?lookup_insert_ne by done; try done.
      rewrite lookup_insert_eq. right; eauto.
Qed.

Lemma update_existing_shaped url doc_type date language description e :
  shaped_doc (VDict e) →
  ∃ e', update_existing url doc_type date language description e = (e', Ok tt)
        ∧ shaped_doc (VDict e')
        ∧ known_urls (VDict e')
          = (if existsb (λ v, eq_str v url) (known_urls (VDict e))
             then known_urls (VDict e)
             else known_urls (VDict e) ++ [VStr url])%list
        ∧ e' !! "url"
          = (if existsb (λ v, eq_str v url) (known_urls (VDict e))
             then e !! "url" else Some (VStr url)).
Proof.
  intros Hs. unfold update_existing, bind.
  destruct (update_urls_shaped url e Hs) as (e1 & -> & Hs1 & Hk1 & Hu1).
  destruct (update_scalar_shaped "type" doc_type e1) as (e2 & -> & Hs2 & Hk2 & Hu2);
    [unfold scalar_keys; set_solver|done|].
  destruct (update_scalar_shaped "date" date e2) as (e3 & -> & Hs3 & Hk3 & Hu3);
    [unfold scalar_keys; set_solver|done|].
  destruct (update_languages_shaped language e3) as (e4 & -> & Hs4 & Hk4 & Hu4);
    [done|].
  destruct (update_scalar_shaped "description" description e4)
    as (e5 & -> & Hs5 & Hk5 & Hu5); [unfold scalar_keys; set_solver|done|].
  exists e5. split; [done|]. split; [done|]. split; congruence.
Qed.

Lemma merged_shaped info d :
  shaped_doc d →
  shaped_doc (merged info d)
  ∧ field (merged info d) "title" = field d "title"
  ∧ known_urls (merged info d)
    = (if existsb (λ v, eq_str v (info_url info)) (known_urls d)
       then known_urls d else known_urls d ++ [VStr (info_url info)])%list
  ∧ field (merged info d) "url"
    = (if existsb (λ v, eq_str v (info_url info)) (known_urls d)
       then field d "url" else Some (VStr (info_url info))).
Proof.
  intros Hs. pose proof Hs as [[t Ht] _ _ _].
  destruct d as [| | | | |e]; try done.
  destruct (update_existing_shaped (info_url info) (info_type info)
              (info_date info) (info_language info) (info_description info)
              e Hs) as (e' & He' & Hs' & Hk & Hu).
  unfold merged. rewrite He'. simpl.
  split; [done|]. split; [|done].
  rewrite <- (update_existing_frame (info_url info) (info_type info)
                (info_date info) (info_language info) (info_description info)
                e "title"), He'; [done|not_scrape_key].
Qed.

Lemma created_shaped info now : shaped_doc (created info now).
Proof.
  split; simpl; unfold new_doc, list_or_absent; simplify_map_eq; eauto.
Qed.

Lemma shaped_with_documents l c :
  shaped c → Forall shaped_doc l → shaped (with_documents l c).
Proof.
  intros (m & md & l0 & -> & Hmd & _ & _) Hl. simpl.
  exists (<["documents" := VList l]> m), md, l.
  by simplify_map_eq.
Qed.

Lemma documents_of_with_documents l c :
  shaped c → documents_of (with_documents l c) = l.
Proof.
  intros (m & md & l0 & -> & _). simpl. by simplify_map_eq.
Qed.

Lemma with_documents_twice l1 l2 c :
  with_documents l2 (with_documents l1 c) = with_documents l2 c.
Proof. destruct c; simpl; try done. by rewrite insert_insert_eq. Qed.

Lemma with_documents_same c : shaped c → with_documents (documents_of c) c = c.
Proof.
  intros (m & md & l0 & -> & _ & Hl & _). simpl. rewrite Hl.
  by rewrite insert_id.
Qed.

Lemma upserted_shaped info now l :
  Forall shaped_doc l → Forall shaped_doc (upserted info now l).
Proof.
  intros Hl. unfold upserted.
  destruct (list_find _ l) as [[i d]|] eqn:Hfind.
  - apply list_find_Some in Hfind as (Hi & _ & _).
    apply Forall_insert; [done|].
    apply merged_shaped. by eapply Forall_lookup_1.
  - apply Forall_app. split; [done|].
    apply Forall_singleton, created_shaped.
Qed.

(** On a shaped catalogue [upsert] does not raise; the documents it
    leaves are [upserted] and the document it returns is [returned]. *)
Lemma upsert_shaped info now c :
  shaped c →
  upsert info now c
  = (with_documents (upserted info now (documents_of c)) c,
     Ok (returned info now (documents_of c))).
Proof.
  intros Hc. unfold upsert, add_or_update_document, upserted, returned.
  rewrite document_exists_shaped by done.
  destruct Hc as (m & md & l & -> & Hmd & Hl & Hall).
  unfold documents_of. simpl. rewrite Hl.
  destruct (list_find _ l) as [[i d]|] eqn:Hfind.
  - apply list_find_Some in Hfind as (Hi & _ & _).
    assert (shaped_doc d) as Hd by by eapply Forall_lookup_1.
    pose proof Hd as [[t Ht] _ _ _].
    destruct d as [| | | | |e]; try done.
    pose proof (shaped_doc_truthy e Hd) as Htruthy.
    destruct (update_existing_shaped (info_url info) (info_type info)
                (info_date info) (info_language info) (info_description info)
                e Hd) as (e' & He' & _).
    simpl in Htruthy |- *. by rewrite Htruthy, He'.
  - unfold create_document, append_document, bind, ret. simpl.
    by rewrite Hl.
Qed.

Lemma upsert_all_shaped calls c :
  shaped c →
  upsert_all calls c = with_documents (upserted_all calls (documents_of c)) c.
Proof.
  revert c. induction calls as [|[info now] rest IH]; intros c Hc; simpl.
  - by rewrite with_documents_same.
  - rewrite (upsert_shaped info now c Hc). simpl.
    assert (Forall shaped_doc (upserted info now (documents_of c))) as Hup.
    { apply upserted_shaped.
      destruct Hc as (m & md & l & -> & _ & Hl & Hall). simpl. by rewrite Hl. }
    rewrite IH by by apply shaped_with_documents.
    by rewrite documents_of_with_documents, with_documents_twice.
Qed.

Lemma shaped_default : shaped default_catalog.
Proof.
  exists (<["metadata" := VDict default_metadata]> (<["documents" := VList []]> ∅)),
    default_metadata, [].
  by simplify_map_eq.
Qed.

Lemma upserted_all_shaped calls l :
  Forall shaped_doc l → Forall shaped_doc (upserted_all calls l).
Proof.
  revert l. induction calls as [|[info now] rest IH]; intros l Hl; simpl;
    auto using upserted_shaped.
Qed.

Lemma upserted_all_app calls1 calls2 l :
  upserted_all (calls1 ++ calls2) l = upserted_all calls2 (upserted_all calls1 l).
Proof.
  revert l. induction calls1 as [|[info now] rest IH]; intros l; simpl; auto.
Qed.

(** *** The documents after a call, position by position *)

Lemma eq_str_true v s : eq_str v s = true ↔ v = VStr s.
Proof.
  destruct v; simpl; try (split; [done|intros; simplify_eq]).
  rewrite String.eqb_eq. split; [by intros ->|by intros [= ->]].
Qed.

Lemma knows_url_true url d : knows_url url d = true ↔ VStr url ∈ known_urls d.
Proof.
  unfold knows_url. rewrite existsb_exists. split.
  - intros (v & Hin & Heq). apply eq_str_true in Heq as ->.
    by apply list_elem_of_In.
  - intros Hin. exists (VStr url). split; [by apply list_elem_of_In|].
    by apply eq_str_true.
Qed.

Lemma matches_title title url d :
  shaped_doc d → field d "title" = Some (VStr title) → matches title url d = true.
Proof.
  intros [_ [u Hu] _ _] Ht. unfold matches. rewrite Ht, Hu. simpl.
  by rewrite String.eqb_refl.
Qed.

Lemma matches_url title url d :
  shaped_doc d → field d "url" = Some (VStr url) → matches title url d = true.
Proof.
  intros [[t Ht] _ _ _] Hu. unfold matches. rewrite Ht, Hu. simpl.
  by rewrite String.eqb_refl, orb_true_r.
Qed.

Lemma matches_inv title url d :
  matches title url d = true →
  field d "title" = Some (VStr title) ∨ field d "url" = Some (VStr url).
Proof.
  unfold matches. repeat case_match; try done.
  - rewrite orb_true_iff, !eq_str_true. intros [->| ->]; auto.
  - rewrite eq_str_true. intros ->. auto.
Qed.


Lemma upserted_length_le info now l : length l ≤ length (upserted info now l).
Proof.
  unfold upserted. destruct (list_find _ l) as [[i d]|].
  - by rewrite length_insert.
  - rewrite length_app. lia.
Qed.



(** *** The current URL stays a known URL *)

Lemma created_known_urls info now :
  known_urls (created info now) = [VStr (info_url info)].
Proof. unfold known_urls, created, new_doc. simpl. by simplify_map_eq. Qed.

Lemma created_url info now :
  field (created info now) "url" = Some (VStr (info_url info)).
Proof. unfold created, new_doc. simpl. by simplify_map_eq. Qed.

Lemma created_url_known info now : url_known (created info now).
Proof.
  exists (info_url info). rewrite created_url, created_known_urls.
  split; [done|]. apply list_elem_of_singleton. done.
Qed.

Lemma merged_url_known info d :
  shaped_doc d → url_known d → url_known (merged info d).
Proof.
  intros Hs (u & Hu & Hin).
  destruct (merged_shaped info d Hs) as (_ & _ & Hk & Hurl).
  fold (knows_url (info_url info) d) in Hk, Hurl.
  unfold url_known. rewrite Hk, Hurl.
  destruct (knows_url (info_url info) d); [by eauto|].
  exists (info_url info). split; [done|].
  apply elem_of_app. right. by apply list_elem_of_singleton.
Qed.

Lemma upserted_url_known info now l :
  Forall shaped_doc l → Forall url_known l →
  Forall url_known (upserted info now l).
Proof.
  intros Hs Hk. unfold upserted.
  destruct (list_find _ l) as [[i d]|] eqn:Hfind.
  - apply list_find_Some in Hfind as (Hi & _ & _).
    apply Forall_insert; [done|].
    apply merged_url_known; by eapply Forall_lookup_1.
  - apply Forall_app. split; [done|].
    apply Forall_singleton, created_url_known.
Qed.

Lemma upserted_all_url_known calls l :
  Forall shaped_doc l → Forall url_known l →
  Forall url_known (upserted_all calls l).
Proof.
  revert l. induction calls as [|[info now] rest IH]; intros l Hs Hk; simpl;
    auto using upserted_shaped, upserted_url_known.
Qed.

(** *** Every URL under one title *)





Lemma documents_of_default : documents_of default_catalog = [].
Proof. done. Qed.

Lemma documents_of_upsert_all calls :
  documents_of (upsert_all calls default_catalog) = upserted_all calls [].
Proof.
  rewrite upsert_all_shaped by apply shaped_default.
  rewrite documents_of_with_documents by apply shaped_default.
  by rewrite documents_of_default.
Qed.




(** C5, amended.  For every document stored by a sequence of calls from
    the empty catalogue, the list of known URLs as line 78 reads it (the
    entry ["urls"] when the document has one, else the one-element list of
    its ["url"]) contains the current ["url"]. *)
Theorem primary_url_is_known calls d :
  d ∈ documents_of (upsert_all calls default_catalog) → url_known d.
Proof.
  rewrite documents_of_upsert_all. intros Hd.
  assert (Forall url_known (upserted_all calls [])) as Hall
    by by apply upserted_all_url_known.
  rewrite Forall_forall in Hall. by apply Hall.
Qed.


(** C5 as stated fails: the document that the creation branch appends has
    no ["urls"] entry; the entry appears with the first promoted URL. *)
Lemma created_without_urls_entry :
  ¬ urls_entry_holds_url [(Sample.rerum_en, Sample.t0)].
Proof.
  intros Hall.
  destruct (Hall (created Sample.rerum_en Sample.t0)) as (l & u & Hurls & _).
  - vm_compute. constructor.
  - vm_compute in Hurls. discriminate.
Qed.

Lemma primary_url_is_known_witness :
  url_known (merged Sample.rerum_la (created Sample.rerum_en Sample.t0)).
Proof.
  apply (primary_url_is_known
           [(Sample.rerum_en, Sample.t0); (Sample.rerum_la, Sample.t1)]).
  vm_compute. constructor.
Defined.

(** *** Promotion of a new URL *)

Lemma update_urls_entry url e :
  shaped_doc (VDict e) → knows_url url (VDict e) = false →
  (update_urls url e).1 !! "urls"
  = Some (VList (known_urls (VDict e) ++ [VStr url])).
Proof.
  intros [[t Ht] [u Hu] Hurls Hlang]. simpl in *.
  unfold knows_url, update_urls, known_urls, get_or. simpl. rewrite Hu.
  destruct Hurls as [Hn|[l Hl]].
  - rewrite Hn. simpl. rewrite orb_false_r. intros ->.
    rewrite lookup_insert_eq. simpl. by simplify_map_eq.
  - rewrite Hl. simpl. intros ->. rewrite Hl. simpl. by simplify_map_eq.
Qed.

Lemma update_existing_urls_entry url doc_type date language description e :
  (update_existing url doc_type date language description e).1 !! "urls"
  = (update_urls url e).1 !! "urls".
Proof.
  unfold update_existing. unfold bind at 1.
  destruct (update_urls url e) as [e1 [[]|x]]; simpl; [|done].
  repeat (apply (bind_fst _ _ (λ e1 e2, e2 !! "urls" = e1 !! "urls"));
          [done | by intros ??? -> -> | | intros _ ?]);
    auto using update_scalar_frame, update_languages_frame.
Qed.

(** C4, amended.  When [add_or_update_document] matches a stored document
    whose known URLs do not contain the candidate URL, the call returns the
    document with the candidate URL appended to ["urls"] and written to
    ["url"]; every older URL is still in ["urls"]; and a later
    [document_exists] with the new URL, under any title, finds a document
    at that position or before it.  ([document_exists] reads ["title"] and
    ["url"] only, so an older URL resolves through a matching title, not
    through ["urls"].) *)
Theorem new_url_appended_and_promoted info now c i d :
  shaped c →
  document_exists (info_title info) (info_url info) c = Ok (Some (i, d)) →
  knows_url (info_url info) d = false →
  ∃ c' d',
    upsert info now c = (c', Ok d') ∧
    documents_of c' !! i = Some d' ∧
    field d' "urls" = Some (VList (known_urls d ++ [VStr (info_url info)])) ∧
    field d' "url" = Some (VStr (info_url info)) ∧
    (∀ v, v ∈ known_urls d → v ∈ known_urls d') ∧
    (∀ title, ∃ j dj,
        document_exists title (info_url info) c' = Ok (Some (j, dj)) ∧ j ≤ i).
Proof.
  intros Hc Hex Hnew.
  rewrite document_exists_shaped in Hex by done.
  injection Hex as Hfind.
  pose proof (upsert_shaped info now c Hc) as Hrun.
  unfold returned in Hrun. rewrite Hfind in Hrun.
  assert (Forall shaped_doc (documents_of c)) as Hall.
  { destruct Hc as (m & md & l & -> & _ & Hl & Hall). simpl. by rewrite Hl. }
  pose proof Hfind as (Hi & _ & _)%list_find_Some.
  assert (shaped_doc d) as Hd by by eapply Forall_lookup_1.
  destruct (merged_shaped info d Hd) as (Hd' & _ & Hk & Hu).
  fold (knows_url (info_url info) d) in Hk, Hu. rewrite Hnew in Hk, Hu.
  assert (documents_of (with_documents (upserted info now (documents_of c)) c)
          !! i = Some (merged info d)) as Hi'.
  { rewrite documents_of_with_documents by done. unfold upserted.
    rewrite Hfind. apply list_lookup_insert_eq. by eapply lookup_lt_Some. }
  assert (shaped (with_documents (upserted info now (documents_of c)) c))
    as Hc' by by apply shaped_with_documents, upserted_shaped.
  exists (with_documents (upserted info now (documents_of c)) c), (merged info d).
  split; [done|split; [done|split; [|split; [done|split]]]].
  - pose proof Hd as [[t Ht] _ _ _]. destruct d as [| | | | |e]; try done.
    simpl. by rewrite update_existing_urls_entry, update_urls_entry.
  - intros v Hv. rewrite Hk. apply elem_of_app. by left.
  - intros title. rewrite document_exists_shaped by done.
    destruct (list_find (λ d, matches title (info_url info) d)
                (documents_of (with_documents
                   (upserted info now (documents_of c)) c)))
      as [[j dj]|] eqn:Hfind'.
    + exists j, dj. split; [done|].
      apply list_find_Some in Hfind' as (_ & _ & Hfirst).
      destruct (decide (j ≤ i)) as [|Hgt]; [done|].
      exfalso. apply (Hfirst i (merged info d)); [done|lia|].
      by apply Is_true_true, matches_url.
    + exfalso. rewrite list_find_None, Forall_forall in Hfind'.
      apply (Hfind' (merged info d)); [by eapply list_elem_of_lookup_2|].
      by apply Is_true_true, matches_url.
Qed.

Lemma new_url_appended_and_promoted_witness :
  ∃ c' d',
    upsert Sample.rerum_la Sample.t1 Sample.annotated = (c', Ok d') ∧
    documents_of c' !! 0 = Some d' ∧
    field d' "urls"
    = Some (VList (known_urls Sample.annotated_doc
                   ++ [VStr Sample.url_rerum_la])) ∧
    field d' "url" = Some (VStr Sample.url_rerum_la) ∧
    (∀ v, v ∈ known_urls Sample.annotated_doc → v ∈ known_urls d') ∧
    (∀ title, ∃ j dj,
        document_exists title Sample.url_rerum_la c' = Ok (Some (j, dj))
        ∧ j ≤ 0).
Proof.
  apply (new_url_appended_and_promoted Sample.rerum_la Sample.t1
           Sample.annotated 0 Sample.annotated_doc).
  - apply shaped_with_documents; [apply shaped_default|].
    apply Forall_singleton.
    split; simpl; unfold list_or_absent; vm_compute; eauto.
  - vm_compute; reflexivity.
  - vm_compute; reflexivity.
Defined.

(** C4 as stated fails: once the Latin URL of Rerum Novarum has been
    promoted, [document_exists] with the older English URL and a title
    that is not the stored one finds nothing. *)
Lemma older_url_not_resolved :
  ¬ older_urls_resolve Sample.rerum_la Sample.t1 Sample.annotated.
Proof.
  intros Hres.
  destruct (Hres 0 Sample.annotated_doc Sample.url_rerum_en "Aeterni Patris")
    as (d' & Hfound).
  - vm_compute; reflexivity.
  - vm_compute; reflexivity.
  - vm_compute. constructor.
  - vm_compute in Hfound. discriminate.
Qed.

End Store.

(** ** Merging the same record again *)

Section Merge.

Implicit Types (e : gmap string value) (d : value) (info : doc_info).

#[local] Arguments truthy : simpl never.

(** Later merges only add to what the guards of the update branch read:
    a guard that is false stays false. *)
Record grows (e e' : gmap string value) : Prop := Grows {
  grows_urls : ∀ u, knows_url u (VDict e) = true → knows_url u (VDict e') = true;
  grows_scalar : ∀ key candidate, key ∈ scalar_keys →
    kept candidate (get e key) = true → kept candidate (get e' key) = true;
  grows_languages : ∀ l, knows_language l (VDict e) = true →
    knows_language l (VDict e') = true
}.

Lemma grows_refl e : grows e e.
Proof. by split. Qed.

Lemma grows_trans e1 e2 e3 : grows e1 e2 → grows e2 e3 → grows e1 e3.
Proof. intros [] []. split; eauto. Qed.

Lemma scalar_key_cases key :
  key ∈ scalar_keys →
  key ≠ "title" ∧ key ≠ "url" ∧ key ≠ "urls" ∧ key ≠ "languages".
Proof. intros Hkey. split_scalar_key Hkey. Qed.

Lemma grows_same e e' :
  known_urls (VDict e') = known_urls (VDict e) →
  (∀ key, key ∈ scalar_keys → e' !! key = e !! key) →
  known_languages (VDict e') = known_languages (VDict e) →
  grows e e'.
Proof.
  intros Hu Hs Hl. split.
  - intros u. unfold knows_url. by rewrite Hu.
  - intros key cand Hkey. unfold get. by rewrite Hs.
  - intros l. unfold knows_language. by rewrite Hl.
Qed.

Lemma existsb_app_l {A} (p : A → bool) (l1 l2 : list A) :
  existsb p l1 = true → existsb p (l1 ++ l2) = true.
Proof. intros H. by rewrite existsb_app, H. Qed.

Lemma update_urls_grows url e :
  shaped_doc (VDict e) →
  ∃ e', update_urls url e = (e', Ok tt) ∧ shaped_doc (VDict e') ∧
        grows e e' ∧ knows_url url (VDict e') = true ∧
        (knows_url url (VDict e) = true → e' = e).
Proof.
  intros Hs.
  destruct (update_urls_shaped url e Hs) as (e' & Hrun & Hs' & Hk & Hu).
  exists e'. split; [done|]. split; [done|].
  fold (knows_url url (VDict e)) in Hk, Hu.
  assert (∀ k, k ≠ "url" → k ≠ "urls" → e' !! k = e !! k) as Hframe.
  { intros k ??. by rewrite <- (update_urls_frame url e k), Hrun. }
  split; [|split].
  - split.
    + intros u. unfold knows_url at 2. rewrite Hk.
      destruct (knows_url url (VDict e)); [done|]. apply existsb_app_l.
    + intros key cand (_ & ? & ? & _)%scalar_key_cases.
      unfold get. by rewrite Hframe.
    + intros l. unfold knows_language, known_languages. simpl.
      by rewrite Hframe.
  - unfold knows_url at 1. rewrite Hk.
    destruct (knows_url url (VDict e)) eqn:Hknown; [done|].
    rewrite existsb_app. simpl. by rewrite String.eqb_refl, !orb_true_r.
  - intros Hknown. unfold update_urls in Hrun.
    destruct Hs as [_ [u Hurl] _ _]. simpl in Hurl. rewrite Hurl in Hrun.
    unfold knows_url, known_urls in Hknown. simpl in Hknown.
    rewrite Hurl in Hknown. unfold get_or, py_in in Hrun.
    destruct (e !! "urls") as [[]|]; simpl in *; try done;
      rewrite Hknown in Hrun; by simplify_eq.
Qed.

Lemma update_scalar_grows key candidate e :
  key ∈ scalar_keys → shaped_doc (VDict e) →
  ∃ e', update_scalar key candidate e = (e', Ok tt) ∧ shaped_doc (VDict e') ∧
        grows e e' ∧ kept candidate (get e' key) = true ∧
        (kept candidate (get e key) = true → e' = e).
Proof.
  intros Hkey Hs.
  destruct (update_scalar_shaped key candidate e Hkey Hs)
    as (e' & Hrun & Hs' & Hk & Hu).
  exists e'. split; [done|]. split; [done|].
  pose proof (scalar_key_cases key Hkey) as (? & ? & ? & ?).
  unfold update_scalar, kept in *.
  destruct (truthy (VStr candidate)) eqn:Hc; simpl in *;
    [|simplify_eq; auto using grows_refl].
  destruct (truthy (get e key)) eqn:Hg; simpl in *;
    [simplify_eq; rewrite Hg; auto using grows_refl|].
  simplify_eq. split; [|split; [|done]].
  - split.
    + intros u. unfold knows_url. by rewrite Hk.
    + intros key' cand' _. unfold get.
      destruct (decide (key' = key)) as [->|].
      * rewrite lookup_insert_eq. unfold kept. simpl. rewrite Hc.
        intros _. apply orb_true_r.
      * by rewrite lookup_insert_ne.
    + intros l. unfold knows_language, known_languages. simpl.
      by rewrite lookup_insert_ne.
  - unfold get. rewrite lookup_insert_eq. simpl. by rewrite Hc.
Qed.

Lemma update_languages_grows language e :
  shaped_doc (VDict e) →
  ∃ e', update_languages language e = (e', Ok tt) ∧ shaped_doc (VDict e') ∧
        grows e e' ∧ knows_language language (VDict e') = true ∧
        (knows_language language (VDict e) = true → e' = e).
Proof.
  intros Hs.
  destruct (update_languages_shaped language e Hs)
    as (e' & Hrun & Hs' & Hk & Hu).
  exists e'. split; [done|]. split; [done|].
  destruct Hs as [_ _ _ Hlang]. simpl in Hlang.
  unfold update_languages, knows_language, known_languages, get_or in *.
  simpl in *.
  destruct (truthy (VStr language)) eqn:Hc; simpl in *;
    [|simplify_eq; auto using grows_refl].
  destruct Hlang as [Hn|[l0 Hl0]].
  - rewrite Hn in *. simpl in *. simplify_eq.
    rewrite lookup_insert_eq. simpl. rewrite String.eqb_refl. simpl.
    split; [|done].
    split.
    + intros u. unfold knows_url. by rewrite Hk.
    + intros key cand (_ & _ & _ & ?)%scalar_key_cases. unfold get.
      by rewrite lookup_insert_ne.
    + intros l. unfold knows_language, known_languages. simpl.
      rewrite Hn, lookup_insert_eq. simpl.
      rewrite !orb_false_r. intros Hl. by rewrite Hl.
  - rewrite Hl0 in *. simpl in *.
    destruct (existsb _ l0) eqn:Hex; simplify_eq.
    + rewrite Hl0. simpl. rewrite Hex.
      auto using grows_refl.
    + rewrite lookup_insert_eq. simpl.
      rewrite existsb_app. simpl. rewrite String.eqb_refl, !orb_true_r.
      split; [|done].
      split.
      * intros u. unfold knows_url. by rewrite Hk.
      * intros key cand (_ & _ & _ & ?)%scalar_key_cases. unfold get.
        by rewrite lookup_insert_ne.
      * intros l. unfold knows_language, known_languages. simpl.
        rewrite Hl0, lookup_insert_eq. simpl.
        intros [->|Hin]%orb_true_iff; [done|].
        by rewrite existsb_app, Hin, orb_true_r.
Qed.

Lemma grows_absorbs info e e' :
  grows e e' → absorbs info (VDict e) = true → absorbs info (VDict e') = true.
Proof.
  intros [Hu Hs Hl]. unfold absorbs, get_field. simpl.
  fold (get e "type") (get e "date") (get e "description").
  fold (get e' "type") (get e' "date") (get e' "description").
  rewrite !andb_true_iff. intros ((((?&?)&?)&?)&?).
  repeat split; auto; apply Hs; auto; unfold scalar_keys; set_solver.
Qed.

(** The update branch on a shaped document: it does not raise, the
    document it leaves absorbs the record, and a document that absorbs the
    record already is left as it is. *)
Lemma update_existing_grows info e :
  shaped_doc (VDict e) →
  ∃ e', update_existing (info_url info) (info_type info) (info_date info)
          (info_language info) (info_description info) e = (e', Ok tt) ∧
        shaped_doc (VDict e') ∧ grows e e' ∧
        absorbs info (VDict e') = true ∧
        (absorbs info (VDict e) = true → e' = e).
Proof.
  intros Hs. unfold update_existing, bind.
  destruct (update_urls_grows (info_url info) e Hs)
    as (e1 & -> & Hs1 & Hg1 & Ha1 & Hid1).
  destruct (update_scalar_grows "type" (info_type info) e1)
    as (e2 & -> & Hs2 & Hg2 & Ha2 & Hid2);
    [unfold scalar_keys; set_solver|done|].
  destruct (update_scalar_grows "date" (info_date info) e2)
    as (e3 & -> & Hs3 & Hg3 & Ha3 & Hid3);
    [unfold scalar_keys; set_solver|done|].
  destruct (update_languages_grows (info_language info) e3)
    as (e4 & -> & Hs4 & Hg4 & Ha4 & Hid4); [done|].
  destruct (update_scalar_grows "description" (info_description info) e4)
    as (e5 & -> & Hs5 & Hg5 & Ha5 & Hid5);
    [unfold scalar_keys; set_solver|done|].
  exists e5. split; [done|]. split; [done|].
  split; [eauto using grows_trans|]. split.
  - unfold absorbs, get_field. simpl.
    fold (get e5 "type") (get e5 "date") (get e5 "description").
    rewrite !andb_true_iff. repeat split.
    + apply Hg5, Hg4, Hg3, Hg2, Ha1.
    + apply Hg5, Hg4, Hg3, Ha2; unfold scalar_keys; set_solver.
    + apply Hg5, Hg4, Ha3; unfold scalar_keys; set_solver.
    + apply Hg5, Ha4.
    + apply Ha5.
  - unfold absorbs, get_field. simpl.
    fold (get e "type") (get e "date") (get e "description").
    rewrite !andb_true_iff. intros ((((Hb1&Hb2)&Hb3)&Hb4)&Hb5).
    rewrite (Hid1 Hb1) in *. rewrite (Hid2 Hb2) in *.
    rewrite (Hid3 Hb3) in *. rewrite (Hid4 Hb4) in *. by apply Hid5.
Qed.

Lemma merged_absorbs info d :
  shaped_doc d → absorbs info (merged info d) = true.
Proof.
  intros Hs. pose proof Hs as [[t Ht] _ _ _].
  destruct d as [| | | | |e]; try done.
  destruct (update_existing_grows info e Hs) as (e' & He' & _ & _ & Ha & _).
  unfold merged. by rewrite He'.
Qed.

Lemma merged_absorbed info d :
  shaped_doc d → absorbs info d = true → merged info d = d.
Proof.
  intros Hs Ha. pose proof Hs as [[t Ht] _ _ _].
  destruct d as [| | | | |e]; try done.
  destruct (update_existing_grows info e Hs) as (e' & He' & _ & _ & _ & Hid).
  unfold merged. rewrite He'. simpl. by rewrite Hid.
Qed.

Lemma merged_keeps_absorbed info info' d :
  shaped_doc d → absorbs info' d = true → absorbs info' (merged info d) = true.
Proof.
  intros Hs Ha. pose proof Hs as [[t Ht] _ _ _].
  destruct d as [| | | | |e]; try done.
  destruct (update_existing_grows info e Hs) as (e' & He' & _ & Hg & _ & _).
  unfold merged. rewrite He'. simpl. by eapply grows_absorbs.
Qed.

Lemma created_absorbs info now : absorbs info (created info now) = true.
Proof.
  unfold absorbs, knows_url, knows_language, known_languages, kept, get_field.
  rewrite created_known_urls. unfold created, new_doc. simpl.
  simplify_map_eq. simpl. rewrite String.eqb_refl. simpl.
  rewrite !orb_negb_l. simpl.
  destruct (truthy (VStr (info_language info))); simpl; [|done].
  by rewrite String.eqb_refl.
Qed.

End Merge.

(** ** Properties of the metadata extractor *)

Section Extractor.

Implicit Types (s t : string) (e : env) (soup : page).

Lemma slice_to_prefix n s :
  n ≤ String.length s →
  String.length (PyStr.slice_to n s) = n ∧
  ∃ rest, s = String.append (PyStr.slice_to n s) rest.
Proof.
  unfold PyStr.slice_to. revert s.
  induction n as [|n IH]; intros s Hn.
  - destruct s; simpl; eauto.
  - destruct s as [|a s]; simpl in *; [lia|].
    destruct (IH s) as (Hlen & rest & Hrest); [lia|].
    split; [by rewrite Hlen|]. exists rest.
    change (String a s = String a (String.substring 0 n s +:+ rest)).
    by rewrite <- Hrest.
Qed.

(** C7. Let [L] be the length of the text of the first [p] element once
    [strip()] has removed the surrounding whitespace.  The description of
    the extracted record is empty when [L ≤ 50], the whole stripped text
    when [50 < L ≤ 200], and otherwise the first 200 characters of the
    stripped text followed by the three-character marker ["..."].  It is
    empty too when the page has no [p] element. *)
Theorem description_by_length e url soup info :
  fetch_page e url = Some soup →
  extract_document_info e url = Some info →
  match select_text soup "p" with
  | None => info_description info = ""
  | Some text =>
      let desc_text := PyStr.strip text in
      let L := String.length desc_text in
      (L ≤ 50 → info_description info = "") ∧
      (50 < L ≤ 200 → info_description info = desc_text) ∧
      (200 < L →
       info_description info
       = String.append (PyStr.slice_to 200 desc_text) "..." ∧
       String.length (PyStr.slice_to 200 desc_text) = 200 ∧
       ∃ rest, desc_text = String.append (PyStr.slice_to 200 desc_text) rest)
  end.
Proof.
  unfold extract_document_info. intros -> [= <-]. simpl.
  destruct (select_text soup "p") as [text|]; [|done]. simpl.
  repeat split.
  - intros HL. by apply Nat.ltb_ge in HL as ->.
  - intros [H50 H200]. apply Nat.ltb_lt in H50 as ->.
    by apply Nat.ltb_ge in H200 as ->.
  - assert (50 < String.length (PyStr.strip text)) as H50 by lia.
    apply Nat.ltb_lt in H50 as ->. by apply Nat.ltb_lt in H as ->.
  - apply slice_to_prefix. lia.
  - apply slice_to_prefix. lia.
Qed.

Lemma description_by_length_witness :
  ∃ info,
    extract_document_info Sample.online Sample.url_rerum_en = Some info ∧
    info_description info
    = String.append (PyStr.slice_to 200 Sample.text250) "...".
Proof.
  eexists. split; [reflexivity|].
  pose proof (description_by_length Sample.online Sample.url_rerum_en
                Sample.rerum_page _ eq_refl eq_refl) as (_ & _ & Hlong).
  destruct Hlong as (Hdesc & _); [vm_compute; lia|].
  exact Hdesc.
Defined.

(** *** Whitespace *)

Lemma lstrip_empty s : PyStr.lstrip s = "" ↔ PyStr.blank s = true.
Proof.
  induction s as [|a s IH]; simpl; [done|].
  destruct (PyStr.is_space a); simpl; [done|]. split; discriminate.
Qed.

Lemma blank_lstrip s : PyStr.blank (PyStr.lstrip s) = PyStr.blank s.
Proof.
  induction s as [|a s IH]; simpl; [done|].
  destruct (PyStr.is_space a) eqn:Ha; simpl; [done|]. by rewrite Ha.
Qed.

Lemma rstrip_empty s : PyStr.rstrip s = "" ↔ PyStr.blank s = true.
Proof.
  induction s as [|a s IH]; simpl; [done|].
  destruct (PyStr.rstrip s) eqn:Hr.
  - destruct (PyStr.is_space a); simpl; [tauto|]. split; discriminate.
  - split; [discriminate|]. intros [_ Hb]%andb_true_iff.
    apply IH in Hb. discriminate.
Qed.

Lemma strip_empty s : PyStr.strip s = "" ↔ PyStr.blank s = true.
Proof. unfold PyStr.strip. by rewrite rstrip_empty, blank_lstrip. Qed.

Lemma blank_sub_ws in_run s :
  PyStr.blank (PyStr.sub_ws in_run s) = PyStr.blank s.
Proof.
  revert in_run. induction s as [|a s IH]; intros in_run; simpl; [done|].
  destruct (PyStr.is_space a) eqn:Ha; simpl.
  - destruct in_run; simpl; by rewrite IH.
  - by rewrite Ha.
Qed.

Lemma sub_ws_run_free in_run s :
  ws_run_free (PyStr.sub_ws in_run s) = true ∧
  (in_run = true → starts_ws (PyStr.sub_ws in_run s) = false).
Proof.
  revert in_run. induction s as [|a s IH]; intros in_run; simpl; [done|].
  destruct (PyStr.is_space a) eqn:Ha.
  - destruct (IH true) as [Hfree Hstart]. destruct in_run; [done|].
    simpl. rewrite Hstart, Hfree by done. done.
  - destruct (IH false) as [Hfree _]. simpl. rewrite Ha, Hfree. done.
Qed.

Lemma ws_run_free_lstrip s :
  ws_run_free s = true → ws_run_free (PyStr.lstrip s) = true.
Proof.
  induction s as [|a s IH]; simpl; [done|].
  intros [H1 H2]%andb_true_iff.
  destruct (PyStr.is_space a) eqn:Ha; [auto|]. simpl. by rewrite Ha, H2.
Qed.

Lemma starts_ws_rstrip s :
  PyStr.rstrip s ≠ "" → starts_ws (PyStr.rstrip s) = starts_ws s.
Proof.
  destruct s as [|a s]; simpl; [done|].
  destruct (PyStr.rstrip s); [|done].
  destruct (PyStr.is_space a) eqn:Ha; simpl; [done|]. by rewrite Ha.
Qed.

Lemma ws_run_free_rstrip s :
  ws_run_free s = true → ws_run_free (PyStr.rstrip s) = true.
Proof.
  induction s as [|a s IH]; simpl; [done|].
  intros [H1 H2]%andb_true_iff.
  destruct (PyStr.rstrip s) as [|b r] eqn:Hr.
  - destruct (PyStr.is_space a) eqn:Ha; simpl; [done|]. by rewrite Ha.
  - change (ws_run_free (String a (String b r)) = true).
    rewrite <- Hr. simpl.
    rewrite starts_ws_rstrip by by rewrite Hr.
    rewrite H1, Hr. by apply IH.
Qed.

Lemma ws_run_free_strip s :
  ws_run_free s = true → ws_run_free (PyStr.strip s) = true.
Proof. intros. by apply ws_run_free_rstrip, ws_run_free_lstrip. Qed.

(** *** The title *)

Lemma blank_rstrip s : PyStr.blank (PyStr.rstrip s) = PyStr.blank s.
Proof.
  induction s as [|a s IH]; simpl; [done|].
  destruct (PyStr.rstrip s) as [|b r] eqn:Hr.
  - apply rstrip_empty in Hr as ->.
    destruct (PyStr.is_space a) eqn:Ha; simpl; [done|]. by rewrite Ha.
  - rewrite <- IH. done.
Qed.

Lemma blank_strip s : PyStr.blank (PyStr.strip s) = PyStr.blank s.
Proof. unfold PyStr.strip. by rewrite blank_rstrip, blank_lstrip. Qed.

Lemma first_title_cases soup selectors :
  (first_title soup selectors = "" ∧
   ∀ selector text, selector ∈ selectors →
     select_text soup selector = Some text → PyStr.blank text = true)
  ∨ (PyStr.blank (first_title soup selectors) = false ∧
     ∃ selector text, selector ∈ selectors ∧
       select_text soup selector = Some text ∧ PyStr.blank text = false).
Proof.
  induction selectors as [|sel rest IH]; simpl.
  - left. split; [done|]. intros ?? Hin. by apply elem_of_nil in Hin.
  - destruct (select_text soup sel) as [text|] eqn:Hsel.
    + destruct (PyStr.strip text) as [|a t] eqn:Hstrip.
      * simpl. apply strip_empty in Hstrip.
        destruct IH as [[Hnone Hall]|[Hsome (sel' & text' & Hin & ? & ?)]].
        -- left. split; [done|].
           intros sel' text' [->|Hin]%elem_of_cons Hs'; [congruence|eauto].
        -- right. split; [done|]. exists sel', text'.
           split; [by apply elem_of_cons; right|done].
      * right. change (truthy (VStr (String a t))) with true. cbn iota.
        assert (PyStr.blank text = false) as Hb.
        { destruct (PyStr.blank text) eqn:Hb; [|done].
          apply strip_empty in Hb. congruence. }
        split; [by rewrite <- Hb, <- (blank_strip text), Hstrip|].
        exists sel, text. split; [by apply elem_of_cons; left|done].
    + destruct IH as [[Hnone Hall]|[Hsome (sel' & text' & Hin & ? & ?)]].
      * left. split; [done|].
        intros sel' text' [->|Hin]%elem_of_cons Hs'; [congruence|eauto].
      * right. split; [done|]. exists sel', text'.
        split; [by apply elem_of_cons; right|done].
Qed.

Lemma tidy_not_empty s :
  PyStr.strip (PyStr.sub_ws false s) ≠ "" ↔ PyStr.blank s = false.
Proof.
  rewrite strip_empty, blank_sub_ws. by destruct (PyStr.blank s).
Qed.

(** C10, amended.  For every URL whose page can be fetched, the title of
    the extracted record has no run of whitespace.  It is not empty when
    some title selector finds text that is not blank.  When every selector
    finds nothing or blank text, the title is the final segment of the
    URL's path with [".html"] removed and hyphens replaced by spaces,
    title-cased and tidied, and it is not empty exactly when that
    title-cased text has a character that is not whitespace. *)
Theorem title_tidy e url soup info :
  fetch_page e url = Some soup →
  extract_document_info e url = Some info →
  ws_run_free (info_title info) = true ∧
  (has_heading soup → info_title info ≠ "") ∧
  (¬ has_heading soup →
   info_title info
   = PyStr.strip (PyStr.sub_ws false (str_title e (url_stem e url))) ∧
   (info_title info ≠ ""
    ↔ PyStr.blank (str_title e (url_stem e url)) = false)).
Proof.
  unfold extract_document_info. intros -> [= <-]. simpl.
  unfold extract_title. split; [|split].
  - apply ws_run_free_strip, sub_ws_run_free.
  - intros (sel & text & Hin & Hsel & Hb).
    destruct (first_title_cases soup title_selectors)
      as [[_ Hall]|[Hsome _]].
    + rewrite (Hall sel text Hin Hsel) in Hb. done.
    + apply tidy_not_empty.
      destruct (first_title soup title_selectors); [done|]. exact Hsome.
  - intros Hno.
    destruct (first_title_cases soup title_selectors)
      as [[-> _]|[_ Hsome]]; [|by destruct Hno].
    simpl. unfold title_from_url. fold (url_stem e url).
    split; [done|]. apply tidy_not_empty.
Qed.

Lemma title_tidy_witness :
  (∃ info,
     extract_document_info Sample.online Sample.url_rerum_en = Some info ∧
     ws_run_free (info_title info) = true ∧ info_title info ≠ "") ∧
  (∃ info,
     extract_document_info Sample.bare Sample.url_rerum_en = Some info ∧
     info_title info = "Hf_L Xiii_Enc_15051891_Rerum Novarum").
Proof.
  split.
  - eexists. split; [reflexivity|].
    pose proof (title_tidy Sample.online Sample.url_rerum_en Sample.rerum_page
                  _ eq_refl eq_refl) as (Hfree & Hsome & _).
    split; [exact Hfree|]. apply Hsome.
    exists "h1", "  Rerum   Novarum ".
    split; [unfold title_selectors; constructor|]. split; reflexivity.
  - eexists. split; [reflexivity|].
    pose proof (title_tidy Sample.bare Sample.url_rerum_en Sample.bare_page
                  _ eq_refl eq_refl) as (_ & _ & Hurl).
    destruct Hurl as [Htitle _].
    { intros (sel & text & _ & Hsel & _). discriminate Hsel. }
    rewrite Htitle. vm_compute. reflexivity.
Defined.

(** C10 as stated fails: the link filter accepts a URL whose final path
    segment is [".html"], and on a page without headings the title derived
    from that segment is empty. *)
Lemma empty_title_from_url : ¬ title_never_empty.
Proof.
  intros Hall.
  destruct (Hall Sample.bare Sample.seed_en Sample.url_dot_html
              {| info_title := ""; info_url := Sample.url_dot_html;
                 info_type := "Unknown"; info_date := "";
                 info_language := "Latin"; info_description := "" |})
    as [Hne _].
  - vm_compute; reflexivity.
  - vm_compute; reflexivity.
  - by apply Hne.
Qed.

End Extractor.

(** ** Properties of persistence and of the orchestrator *)

Section Orchestrator.

Implicit Types (e : env) (s : scraper) (c : value) (k : counters).

Lemma shaped_stamped stamp c : shaped c → shaped (stamped stamp c).
Proof.
  intros (m & md & l & -> & Hmd & Hl & Hall). unfold stamped. rewrite Hmd.
  eexists _, _, l. split; [done|]. by simplify_map_eq.
Qed.

Lemma documents_of_stamped stamp c :
  documents_of (stamped stamp c) = documents_of c.
Proof.
  unfold stamped. repeat case_match; try done. simpl.
  by rewrite lookup_insert_ne.
Qed.

Lemma set_metadata_dict key v (m md : gmap string value) :
  m !! "metadata" = Some (VDict md) →
  set_metadata key v (VDict m)
  = (VDict (<["metadata" := VDict (<[key := v]> md)]> m), Ok tt).
Proof. intros Hmd. unfold set_metadata. simpl. by rewrite Hmd. Qed.

Lemma count_documents_dict (m : gmap string value) l :
  m !! "documents" = Some (VList l) →
  count_documents (VDict m) = (VDict m, Ok (length l)).
Proof. intros Hl. unfold count_documents. simpl. by rewrite Hl. Qed.

(** [save_data] on a shaped catalogue. *)
Lemma save_data_shaped e s :
  shaped (documents s) →
  save_data e s
  = (Scraper (stamped (clock e (ticks s)) (documents s))
       (Holds (stamped (clock e (ticks s)) (documents s)))
       (S (ticks s))
       (stdout s ++ [Saved (length (documents_of (documents s)))]),
     Ok tt).
Proof.
  intros (m & md & l & Hc & Hmd & Hl & Hall). destruct s as [c f n out].
  simpl in *. subst c.
  unfold save_data, bind, now, on_documents, dump, print, stamped,
    documents_of.
  cbn [documents data_file ticks stdout].
  rewrite (set_metadata_dict _ _ m md Hmd).
  cbn [documents data_file ticks stdout].
  erewrite count_documents_dict by by rewrite lookup_insert_ne.
  cbn [documents data_file ticks stdout].
  erewrite set_metadata_dict by by rewrite lookup_insert_eq.
  cbn [documents data_file ticks stdout].
  erewrite count_documents_dict
    by by rewrite lookup_insert_ne, lookup_insert_ne.
  cbn [documents data_file ticks stdout].
  rewrite Hmd, Hl. by rewrite !insert_insert_eq.
Qed.

(** *** Loading *)

(** X24. [load_existing_data] recovers when the data file is absent, or
    is present but its text is not JSON, that is, when [json.load] raises
    [JSONDecodeError]: the scraper is built with the empty default
    catalogue, in the second case after the failure has been printed, and
    [save_data] on that scraper does not raise and leaves the catalogue
    it has written in the data file. *)
Theorem load_recovers_from_invalid_json e f :
  f = Absent ∨ f = Unreadable JSONDecodeError →
  ∃ s s',
    init f = Ok s ∧
    documents s = default_catalog ∧
    (f ≠ Absent → stdout s = [LoadFailed JSONDecodeError]) ∧
    save_data e s = (s', Ok tt) ∧
    data_file s' = Holds (documents s').
Proof.
  intros [-> | ->].
  - eexists (Scraper default_catalog Absent 0 []), _.
    split; [done|]. split; [done|]. split; [done|].
    rewrite save_data_shaped by apply shaped_default. done.
  - eexists (Scraper default_catalog _ 0 [LoadFailed JSONDecodeError]), _.
    split; [done|]. split; [done|]. split; [done|].
    rewrite save_data_shaped by apply shaped_default. done.
Qed.

Lemma load_recovers_from_invalid_json_witness :
  ∃ s s',
    init (Unreadable JSONDecodeError) = Ok s ∧
    documents s = default_catalog ∧
    (Unreadable JSONDecodeError ≠ Absent →
     stdout s = [LoadFailed JSONDecodeError]) ∧
    save_data Sample.online s = (s', Ok tt) ∧
    data_file s' = Holds (documents s').
Proof.
  apply (load_recovers_from_invalid_json Sample.online
           (Unreadable JSONDecodeError)).
  right. reflexivity.
Defined.

(** C8.  The code does not do what the claim says on a data file whose
    bytes are not UTF-8 text: [json.load] raises [UnicodeDecodeError],
    the [except] clause of line 41 names [JSONDecodeError] and
    [FileNotFoundError] only, and [load_existing_data] raises to its
    caller instead of returning the empty default catalogue.  The same
    happens on a data file whose JSON value is an array, or whose
    ["documents"] entry has no length: the [print] of line 39 raises
    [AttributeError] or [TypeError] inside the [try].  The sibling path,
    a text that is not JSON, recovers. *)
Theorem load_raises_on_undecodable :
  init (Unreadable UnicodeDecodeError) = Raise UnicodeDecodeError ∧
  init (Holds (VList [])) = Raise AttributeError ∧
  init (Holds (VDict {["documents" := VNone]})) = Raise TypeError ∧
  init (Unreadable JSONDecodeError)
  = Ok (Scraper default_catalog (Unreadable JSONDecodeError) 0
          [LoadFailed JSONDecodeError]) ∧
  ¬ load_always_recovers.
Proof.
  repeat split; try reflexivity.
  intros Hall.
  destruct (Hall (Unreadable UnicodeDecodeError)) as (s & Hinit & _).
  - right. right. reflexivity.
  - discriminate Hinit.
Qed.

(** *** The call with the unpacked record *)

(** The dict of lines 250-257 has the key ['type'], which names no
    parameter of [add_or_update_document]: the binding fails. *)
Lemma bind_keywords_unpacked info :
  bind_keywords (keywords info) = Raise TypeError.
Proof. reflexivity. Qed.

Lemma add_or_update_raises e info s :
  add_or_update e info s = (s, Raise TypeError).
Proof. unfold add_or_update. by rewrite bind_keywords_unpacked. Qed.

(** Lines 276-282 raise on every record, and leave the scraper as it
    is: what [document_exists] raises, or the [TypeError] of the call. *)
Lemma record_candidate_raises e info k s :
  ∃ x, record_candidate e info k s = (s, Raise x) ∧
       (shaped (documents s) → x = TypeError).
Proof.
  destruct s as [c f n out]. unfold record_candidate.
  unfold bind at 1. unfold on_documents at 1.
  cbn [documents data_file ticks stdout].
  destruct (document_exists (info_title info) (info_url info) c)
    as [existing|x] eqn:Hex.
  - exists TypeError. split; [|done].
    case_match; unfold bind; by rewrite add_or_update_raises.
  - exists x. split; [done|]. intros Hs.
    rewrite document_exists_shaped in Hex by done. discriminate Hex.
Qed.

(** *** One iteration of the loop *)

Lemma shaped_documents_of c : shaped c → Forall shaped_doc (documents_of c).
Proof.
  intros (m & md & l & -> & _ & Hl & Hall). simpl. by rewrite Hl.
Qed.

Lemma count_and_checkpoint_shaped e k s :
  shaped (documents s) →
  count_and_checkpoint e k s
  = (if (processed k + 1) mod 10 =? 0
     then Scraper (stamped (clock e (ticks s)) (documents s))
            (Holds (stamped (clock e (ticks s)) (documents s)))
            (S (ticks s))
            (stdout s ++ [Saved (length (documents_of (documents s)))])
     else s,
     Ok (Counters (processed k + 1) (new_docs k) (updated_docs k))).
Proof.
  intros Hs. unfold count_and_checkpoint, bind, when, ret.
  cbn [processed].
  destruct ((processed k + 1) mod 10 =? 0); [|done].
  by rewrite save_data_shaped.
Qed.

(** A candidate whose page can be fetched stops the run. *)
Lemma scrape_one_fetched e url k s soup :
  fetch_page e url = Some soup →
  ∃ x,
    scrape_one e url k s
    = (Scraper (documents s) (data_file s) (ticks s)
         (stdout s ++ [Processing (processed k + 1) url]), Raise x) ∧
    (shaped (documents s) → x = TypeError).
Proof.
  intros Hsoup. unfold scrape_one, extract_document_info. rewrite Hsoup.
  unfold bind at 1. unfold print at 1.
  set (s1 := Scraper _ _ _ _). set (info := DocInfo _ _ _ _ _ _).
  destruct (record_candidate_raises e info k s1) as (x & Hrec & Hx).
  exists x. unfold bind. by rewrite Hrec.
Qed.

(** A candidate whose page cannot be fetched is counted, and no more. *)
Lemma scrape_one_unfetched e url k s :
  fetch_page e url = None →
  scrape_one e url k s
  = count_and_checkpoint e k
      (Scraper (documents s) (data_file s) (ticks s)
         (stdout s ++ [Processing (processed k + 1) url])).
Proof.
  intros Hnone. unfold scrape_one, extract_document_info. rewrite Hnone.
  unfold bind at 1. unfold print at 1. unfold bind, ret. done.
Qed.

(** *** The loop *)

Lemma tenths_S p n :
  tenths p (S n)
  = (if (p + 1) mod 10 =? 0 then [p + 1] else []) ++ tenths (p + 1) n.
Proof.
  unfold tenths.
  change (seq (p + 1) (S n)) with ((p + 1) :: seq (S (p + 1)) n).
  rewrite filter_cons. replace (S (p + 1)) with (p + 1 + 1) by lia.
  destruct (decide ((p + 1) mod 10 = 0)) as [Hm|Hm].
  - apply Nat.eqb_eq in Hm. by rewrite Hm.
  - apply Nat.eqb_neq in Hm. by rewrite Hm.
Qed.

Lemma scrape_loop_app e urls1 urls2 k s :
  scrape_loop e (urls1 ++ urls2) k s
  = match scrape_loop e urls1 k s with
    | (s1, Ok k1) => scrape_loop e urls2 k1 s1
    | (s1, Raise x) => (s1, Raise x)
    end.
Proof.
  revert k s. induction urls1 as [|url rest IH]; intros k s; simpl; [done|].
  unfold bind. destruct (scrape_one e url k s) as [s1 [k1|x]]; [|done].
  apply IH.
Qed.

(** Over candidates whose pages cannot be fetched the loop does not
    raise: it counts them, prints their lines, saves at the multiples of
    ten and leaves the stored documents as they are. *)
Lemma scrape_loop_unfetched e urls k s :
  shaped (documents s) →
  Forall (λ url, fetch_page e url = None) urls →
  ∃ s' out,
    scrape_loop e urls k s
    = (s', Ok (Counters (processed k + length urls) (new_docs k)
                 (updated_docs k))) ∧
    shaped (documents s') ∧
    documents_of (documents s') = documents_of (documents s) ∧
    stdout s' = stdout s ++ out ∧
    (∀ later, save_points (processed k) (out ++ later)
              = tenths (processed k) (length urls)
                ++ save_points (processed k + length urls) later) ∧
    ticks s' = ticks s + length (tenths (processed k) (length urls)) ∧
    match tenths (processed k) (length urls) with
    | [] => documents s' = documents s ∧ data_file s' = data_file s
    | _ => data_file s' = Holds (documents s')
    end.
Proof.
  intros Hs Hnone. revert k s Hs.
  induction Hnone as [|url rest Hurl Hrest IH]; intros k s Hs.
  - exists s, []. destruct k as [p n u]. simpl. unfold ret.
    rewrite app_nil_r, Nat.add_0_r. by repeat split.
  - simpl. unfold bind. rewrite scrape_one_unfetched by done.
    rewrite count_and_checkpoint_shaped by done.
    cbn [documents data_file ticks stdout]. rewrite tenths_S.
    set (k1 := Counters _ _ _).
    destruct ((processed k + 1) mod 10 =? 0).
    + destruct (IH k1 (Scraper (stamped (clock e (ticks s)) (documents s))
                         (Holds (stamped (clock e (ticks s)) (documents s)))
                         (S (ticks s))
                         ((stdout s ++ [Processing (processed k + 1) url])
                          ++ [Saved (length (documents_of (documents s)))])))
        as (s' & out & Hloop & Hs' & Hd' & Hout & Hpts & Ht & Hfile).
      { by apply shaped_stamped. }
      cbn [documents data_file ticks stdout processed new_docs updated_docs k1]
        in *.
      exists s', ([Processing (processed k + 1) url;
                   Saved (length (documents_of (documents s)))] ++ out).
      rewrite Hloop. split; [do 3 f_equal; lia|]. split; [done|].
      split; [by rewrite Hd', documents_of_stamped|].
      split; [by rewrite Hout, <- !app_assoc|].
      split.
      { intros later. simpl.
        replace (S (processed k)) with (processed k + 1) by lia.
        rewrite Hpts. do 3 f_equal. lia. }
      split; [simpl; lia|]. simpl.
      destruct (tenths (processed k + 1) (length rest)); [|done].
      destruct Hfile as [-> ->]. done.
    + destruct (IH k1 (Scraper (documents s) (data_file s) (ticks s)
                         (stdout s ++ [Processing (processed k + 1) url])))
        as (s' & out & Hloop & Hs' & Hd' & Hout & Hpts & Ht & Hfile);
        [done|].
      cbn [documents data_file ticks stdout processed new_docs updated_docs k1]
        in *.
      exists s', ([Processing (processed k + 1) url] ++ out).
      rewrite Hloop. split; [do 3 f_equal; lia|]. split; [done|].
      split; [done|]. split; [by rewrite Hout, <- !app_assoc|].
      split.
      { intros later. simpl.
        replace (S (processed k)) with (processed k + 1) by lia.
        rewrite Hpts. do 2 f_equal. lia. }
      split; [done|]. done.
Qed.

(** The loop stops at the first candidate whose page can be fetched. *)
Lemma scrape_loop_stops e pre url rest k s :
  shaped (documents s) →
  Forall (λ url, fetch_page e url = None) pre →
  is_Some (fetch_page e url) →
  ∃ s1 out,
    scrape_loop e pre k s
    = (s1, Ok (Counters (processed k + length pre) (new_docs k)
                 (updated_docs k))) ∧
    scrape_loop e (pre ++ url :: rest) k s
    = (Scraper (documents s1) (data_file s1) (ticks s1)
         (stdout s1 ++ [Processing (processed k + length pre + 1) url]),
       Raise TypeError) ∧
    shaped (documents s1) ∧
    documents_of (documents s1) = documents_of (documents s) ∧
    stdout s1 = stdout s ++ out ∧
    (∀ later, save_points (processed k) (out ++ later)
              = tenths (processed k) (length pre)
                ++ save_points (processed k + length pre) later) ∧
    ticks s1 = ticks s + length (tenths (processed k) (length pre)) ∧
    match tenths (processed k) (length pre) with
    | [] => documents s1 = documents s ∧ data_file s1 = data_file s
    | _ => data_file s1 = Holds (documents s1)
    end.
Proof.
  intros Hs Hpre [soup Hsoup].
  destruct (scrape_loop_unfetched e pre k s Hs Hpre)
    as (s1 & out & Hloop & Hs1 & Hd1 & Hout & Hpts & Ht & Hfile).
  exists s1, out. split; [done|]. split; [|done].
  rewrite scrape_loop_app, Hloop. simpl. unfold bind.
  destruct (scrape_one_fetched e url
              (Counters (processed k + length pre) (new_docs k)
                 (updated_docs k)) s1 soup Hsoup) as (x & Hone & Hx).
  rewrite Hone. by rewrite (Hx Hs1).
Qed.

(** *** Building the scraper *)

Lemma init_fresh f :
  f = Absent ∨ f = Unreadable JSONDecodeError →
  ∃ out, init f = Ok (Scraper default_catalog f 0 out).
Proof. intros [-> | ->]; eexists; reflexivity. Qed.

Lemma init_shaped c :
  shaped c → init (Holds c) = Ok (Scraper c (Holds c) 0 []).
Proof.
  intros (m & md & l & -> & _ & Hl & _).
  unfold init, load_existing_data, try_load, get_or. by rewrite Hl.
Qed.

Lemma enumerates_elements : enumerates elements.
Proof. intros s. split; [apply NoDup_elements|apply elem_of_elements]. Qed.



(** *** The run *)

(** C9.  What the code does on the run that the claim describes, over 25
    candidate URLs whose pages can be fetched, from no data file: the
    call of line 281 raises [TypeError] at the first candidate, because
    the record has the key ['type'] where [add_or_update_document] has
    the parameter [doc_type].  The run prints the line of the first
    candidate and nothing else; no persist takes place, neither after the
    10th and the 20th candidate nor at the end, and there is still no
    data file. *)
Theorem run_of_25_raises_before_any_save :
  scrape_urls Sample.online Sample.urls25 Sample.fresh
  = (Scraper default_catalog Absent 0
       [Processing 1
          "https://www.vatican.va/content/leo-xiii/en/letters/documents/A.html"],
     Raise TypeError).
Proof. vm_compute. reflexivity. Qed.




End Orchestrator.
(** ** Worked examples *)

Section Examples.

(** The heading of the page is stripped and its whitespace collapsed. *)
Example title_of_heading :
  info_title <$> extract_document_info Sample.online Sample.url_rerum_en
  = Some "Rerum Novarum".
Proof. vm_compute. reflexivity. Qed.

(** Without a heading the title comes from the last path segment. *)
Example title_of_url :
  info_title <$> extract_document_info Sample.bare Sample.url_rerum_en
  = Some "Hf_L Xiii_Enc_15051891_Rerum Novarum".
Proof. vm_compute. reflexivity. Qed.

(** A paragraph of 250 characters is stored as 200 characters and the
    marker; one of 30 characters is not stored. *)
Example long_paragraph :
  String.length (extract_description (Some Sample.text250)) = 203.
Proof. vm_compute. reflexivity. Qed.

Example short_paragraph : extract_description (Some Sample.text30) = "".
Proof. vm_compute. reflexivity. Qed.

(** Two records with the same title and different URLs are merged into one
    document that knows both URLs. *)
Example identity_merge :
  known_urls <$>
    documents_of
      (upsert_all [(Sample.rerum_en, Sample.t0); (Sample.rerum_la, Sample.t1)]
         default_catalog)
  = [[VStr Sample.url_rerum_en; VStr Sample.url_rerum_la]].
Proof. vm_compute. reflexivity. Qed.

(** A stored type is kept when a later record supplies another one. *)
Example type_kept :
  (λ d, field d "type") <$>
    documents_of
      (upsert_all [(Sample.rerum_en, Sample.t0);
                   (Sample.rerum_as_letter, Sample.t1)] default_catalog)
  = [Some (VStr "Encyclical")].
Proof. vm_compute. reflexivity. Qed.

(** A run over 25 candidates that cannot be fetched saves after the 10th
    and the 20th and at the end, and stores nothing. *)
Example run_of_25 :
  let s := (scrape_urls Sample.offline Sample.urls25 Sample.fresh).1 in
  save_points 0 (stdout s) = [10; 20; 25] ∧
  data_file s = Holds (documents s) ∧
  documents_of (documents s) = [].
Proof. vm_compute. repeat split; reflexivity. Qed.

(** The same run stops at the 15th candidate when its page is the first
    that can be fetched: the save after the 10th candidate has taken
    place, those after the 20th and at the end have not. *)
Example run_of_25_with_a_page :
  let e := Sample.library (λ url,
             if String.eqb url
                  "https://www.vatican.va/content/leo-xiii/en/letters/documents/O.html"
             then Some Sample.bare_page else None) in
  let r := scrape_urls e Sample.urls25 Sample.fresh in
  r.2 = Raise TypeError ∧
  save_points 0 (stdout r.1) = [10] ∧
  data_file r.1 = Holds (documents r.1) ∧
  documents_of (documents r.1) = [].
Proof. vm_compute. repeat split; reflexivity. Qed.

End Examples.

(** ** Further properties of the document store *)

Section StoreMore.

Implicit Types (c : value) (l : list value) (d : value).




(** X2. No call of [add_or_update_document] changes the title, the
    primary language or the creation date of a stored document, whatever
    the calls and their outcome: the entries ["title"], ["language"] and
    ["added_date"] of the document at a position are the same after any
    sequence of calls. *)
Theorem identity_fields_untouched calls c i d :
  documents_of c !! i = Some d →
  ∃ d', documents_of (upsert_all calls c) !! i = Some d' ∧
        field d' "title" = field d "title" ∧
        field d' "language" = field d "language" ∧
        field d' "added_date" = field d "added_date".
Proof.
  revert c d. induction calls as [|[info now] rest IH]; intros c d Hi; simpl.
  - eauto.
  - destruct (upsert info now c) as [c1 r1] eqn:Hrun. unfold upsert in Hrun.
    destruct (add_or_update_document_frame _ _ _ _ _ _ _ _ _ _ _ _ Hrun Hi)
      as (d1 & Hi1 & Hframe).
    destruct (IH c1 d1 Hi1) as (d' & Hi' & Ht & Hl & Ha).
    exists d'. split; [done|].
    rewrite Ht, Hl, Ha. repeat split; apply Hframe; not_scrape_key.
Qed.

Lemma identity_fields_untouched_witness :
  ∃ d', documents_of
          (upsert_all [(Sample.rerum_la, Sample.t1);
                       (Sample.rerum_as_letter, Sample.t1)] Sample.annotated)
          !! 0 = Some d' ∧
        field d' "title" = field Sample.annotated_doc "title" ∧
        field d' "language" = field Sample.annotated_doc "language" ∧
        field d' "added_date" = field Sample.annotated_doc "added_date".
Proof.
  apply (identity_fields_untouched
           [(Sample.rerum_la, Sample.t1); (Sample.rerum_as_letter, Sample.t1)]
           Sample.annotated 0 Sample.annotated_doc).
  vm_compute. reflexivity.
Defined.

(** X3. A call of [add_or_update_document] never removes a document: on
    every catalogue and for every outcome, the list of documents after the
    call is as long as before or longer by one. *)
Theorem catalogue_never_shrinks
    title url doc_type date language description now c :
  let c' := (add_or_update_document title url doc_type date language
               description now c).1 in
  length (documents_of c) ≤ length (documents_of c') ≤
  S (length (documents_of c)).
Proof.
  cbn zeta. unfold add_or_update_document.
  assert (∀ c1 r1,
            create_document title url doc_type date language description now c
            = (c1, r1) →
            length (documents_of c) ≤ length (documents_of c1)
            ≤ S (length (documents_of c))) as Hcreate.
  { intros c1 r1 Hc. apply create_document_spec in Hc as [[_ Hd]|[_ ->]].
    - rewrite Hd, length_app. simpl. lia.
    - lia. }
  assert (∀ j e, length (documents_of c)
                 ≤ length (documents_of (store_document j (VDict e) c))
                 ≤ S (length (documents_of c))) as Hstore.
  { intros j e. rewrite documents_of_store_document, length_insert. lia. }
  destruct (document_exists title url c) as [[[j dj]|]|x]; simpl; [| |lia].
  - repeat case_match; simpl; subst;
      try lia; try apply Hstore; eapply Hcreate, surjective_pairing.
  - eapply Hcreate, surjective_pairing.
Qed.

(** *** Growth of the known URLs and languages *)

Lemma update_languages_entry language (e : gmap string value) :
  shaped_doc (VDict e) →
  known_languages (VDict (update_languages language e).1)
  = if knows_language language (VDict e) then known_languages (VDict e)
    else known_languages (VDict e) ++ [VStr language].
Proof.
  intros [_ _ _ Hlang]. simpl in Hlang.
  unfold update_languages, knows_language, known_languages, get_or.
  destruct (truthy (VStr language)); simpl; [|done].
  destruct Hlang as [Hn|[l Hl]].
  - rewrite Hn. simpl. by rewrite lookup_insert_eq.
  - rewrite Hl. simpl. destruct (existsb _ l); simpl; [by rewrite Hl|].
    by rewrite lookup_insert_eq.
Qed.

Lemma merged_languages info d :
  shaped_doc d →
  known_languages (merged info d)
  = if knows_language (info_language info) d then known_languages d
    else known_languages d ++ [VStr (info_language info)].
Proof.
  intros Hs. pose proof Hs as [[t Ht] _ _ _].
  destruct d as [| | | | |e]; try done.
  unfold merged, update_existing, bind.
  destruct (update_urls_shaped (info_url info) e Hs) as (e1 & H1 & Hs1 & _).
  destruct (update_scalar_shaped "type" (info_type info) e1)
    as (e2 & H2 & Hs2 & _); [unfold scalar_keys; set_solver|done|].
  destruct (update_scalar_shaped "date" (info_date info) e2)
    as (e3 & H3 & Hs3 & _); [unfold scalar_keys; set_solver|done|].
  destruct (update_languages_shaped (info_language info) e3 Hs3)
    as (e4 & H4 & Hs4 & _).
  destruct (update_scalar_shaped "description" (info_description info) e4)
    as (e5 & H5 & Hs5 & _); [unfold scalar_keys; set_solver|done|].
  rewrite H1, H2, H3, H4, H5. simpl.
  pose proof (update_urls_frame (info_url info) e "languages") as F1.
  pose proof (update_scalar_frame "type" (info_type info) e1 "languages") as F2.
  pose proof (update_scalar_frame "date" (info_date info) e2 "languages") as F3.
  pose proof (update_scalar_frame "description" (info_description info) e4
                "languages") as H45.
  rewrite H1 in F1. rewrite H2 in F2. rewrite H3 in F3. rewrite H5 in H45.
  simpl in F1, F2, F3, H45.
  assert (e3 !! "languages" = e !! "languages") as H03
    by by rewrite F3, F2, F1.
  specialize (H45 ltac:(done)).
  pose proof (update_languages_entry (info_language info) e3 Hs3) as Hent.
  rewrite H4 in Hent. simpl in Hent.
  unfold knows_language, known_languages in *. simpl in *.
  by rewrite H45, Hent, H03.
Qed.

Lemma upserted_grows info now l i d :
  Forall shaped_doc l → l !! i = Some d →
  ∃ d', upserted info now l !! i = Some d' ∧
        known_urls d `prefix_of` known_urls d' ∧
        known_languages d `prefix_of` known_languages d'.
Proof.
  intros Hl Hi. unfold upserted.
  destruct (list_find _ l) as [[j dj]|] eqn:Hfind.
  - apply list_find_Some in Hfind as (Hj & _ & _).
    destruct (decide (j = i)) as [->|Hne].
    + simplify_eq. exists (merged info d).
      assert (shaped_doc d) as Hd by by eapply Forall_lookup_1.
      split; [apply list_lookup_insert_eq; by eapply lookup_lt_Some|].
      destruct (merged_shaped info d Hd) as (_ & _ & -> & _).
      rewrite merged_languages by done.
      split; case_match; try done; by eexists.
    + exists d. by rewrite list_lookup_insert_ne.
  - exists d. by rewrite lookup_app_l by by eapply lookup_lt_Some.
Qed.

(** X4. The known URLs and the known languages of a stored document only
    grow: on a catalogue of the shape the scraper writes, after any
    sequence of calls of [add_or_update_document] the document is at the
    same position and its earlier lists of URLs and of languages are
    prefixes of the later ones. *)
Theorem urls_and_languages_only_grow calls c i d :
  shaped c → documents_of c !! i = Some d →
  ∃ d', documents_of (upsert_all calls c) !! i = Some d' ∧
        known_urls d `prefix_of` known_urls d' ∧
        known_languages d `prefix_of` known_languages d'.
Proof.
  intros Hc. rewrite upsert_all_shaped by done.
  rewrite documents_of_with_documents by done.
  assert (Forall shaped_doc (documents_of c)) as Hl.
  { destruct Hc as (m & md & l & -> & _ & Hl & Hall). simpl. by rewrite Hl. }
  clear Hc. revert d Hl. generalize (documents_of c).
  induction calls as [|[info now] rest IH]; intros l d Hl Hi; simpl.
  - by exists d.
  - destruct (upserted_grows info now l i d Hl Hi) as (d1 & Hi1 & Hu1 & Hl1).
    destruct (IH (upserted info now l) d1) as (d' & Hi' & Hu' & Hl');
      [by apply upserted_shaped|done|].
    exists d'. split; [done|]. split; by etrans.
Qed.

Lemma urls_and_languages_only_grow_witness :
  ∃ d', documents_of
          (upsert_all [(Sample.rerum_la, Sample.t1)] Sample.annotated)
          !! 0 = Some d' ∧
        known_urls Sample.annotated_doc `prefix_of` known_urls d' ∧
        known_languages Sample.annotated_doc `prefix_of` known_languages d'.
Proof.
  apply (urls_and_languages_only_grow [(Sample.rerum_la, Sample.t1)]
           Sample.annotated 0 Sample.annotated_doc).
  - apply shaped_with_documents; [apply shaped_default|].
    apply Forall_singleton.
    split; simpl; unfold list_or_absent; vm_compute; eauto.
  - vm_compute. reflexivity.
Defined.

(** *** No URL and no language is recorded twice *)

Lemma knows_language_false language d :
  knows_language language d = false → VStr language ∉ known_languages d.
Proof.
  unfold knows_language. intros [_ Hex]%orb_false_iff Hin.
  apply not_true_iff_false in Hex. apply Hex, existsb_exists.
  exists (VStr language). split; [by apply list_elem_of_In|].
  by apply eq_str_true.
Qed.

Lemma NoDup_snoc {A} (l : list A) (x : A) : NoDup l → x ∉ l → NoDup (l ++ [x]).
Proof.
  intros Hl Hx. apply NoDup_app. split; [done|]. split.
  - intros y Hy ->%list_elem_of_singleton. done.
  - apply NoDup_singleton.
Qed.

Lemma merged_no_duplicates info d :
  shaped_doc d →
  NoDup (known_urls d) ∧ NoDup (known_languages d) →
  NoDup (known_urls (merged info d)) ∧ NoDup (known_languages (merged info d)).
Proof.
  intros Hd [Hu Hl].
  destruct (merged_shaped info d Hd) as (_ & _ & -> & _).
  rewrite merged_languages by done.
  fold (knows_url (info_url info) d). split.
  - destruct (knows_url (info_url info) d) eqn:Hk; [done|].
    apply NoDup_snoc; [done|]. rewrite <- knows_url_true. by rewrite Hk.
  - destruct (knows_language (info_language info) d) eqn:Hk; [done|].
    apply NoDup_snoc; [done|]. by apply knows_language_false.
Qed.

Lemma created_no_duplicates info now :
  NoDup (known_urls (created info now)) ∧
  NoDup (known_languages (created info now)).
Proof.
  rewrite created_known_urls. split; [apply NoDup_singleton|].
  unfold known_languages, created, new_doc. simpl. simplify_map_eq.
  case_match; [apply NoDup_singleton|apply NoDup_nil_2].
Qed.

(** X5. The lists behave as sets: in every document stored by calls of
    [add_or_update_document] from the empty catalogue, no URL occurs twice
    among the known URLs and no language occurs twice among the known
    languages. *)
Theorem known_lists_without_duplicates calls d :
  d ∈ documents_of (upsert_all calls default_catalog) →
  NoDup (known_urls d) ∧ NoDup (known_languages d).
Proof.
  rewrite documents_of_upsert_all.
  assert (∀ l, Forall shaped_doc l →
               Forall (λ d, NoDup (known_urls d) ∧ NoDup (known_languages d)) l →
               Forall (λ d, NoDup (known_urls d) ∧ NoDup (known_languages d))
                 (upserted_all calls l)) as Hall.
  { induction calls as [|[info now] rest IH]; intros l Hs Hl; simpl; [done|].
    apply IH; [by apply upserted_shaped|]. unfold upserted.
    destruct (list_find _ l) as [[i d0]|] eqn:Hfind.
    - apply list_find_Some in Hfind as (Hi & _ & _).
      apply Forall_insert; [done|]. apply merged_no_duplicates.
      + by eapply Forall_lookup_1.
      + by apply (Forall_lookup_1 _ _ _ _ Hl Hi).
    - apply Forall_app. split; [done|].
      apply Forall_singleton, created_no_duplicates. }
  intros Hd. specialize (Hall [] ltac:(done) ltac:(done)).
  rewrite Forall_forall in Hall. by apply Hall.
Qed.

Lemma known_lists_without_duplicates_witness :
  NoDup (known_urls (merged Sample.rerum_la (created Sample.rerum_en Sample.t0)))
  ∧ NoDup (known_languages
             (merged Sample.rerum_la (created Sample.rerum_en Sample.t0))).
Proof.
  apply (known_lists_without_duplicates
           [(Sample.rerum_en, Sample.t0); (Sample.rerum_la, Sample.t1)]).
  vm_compute. constructor.
Defined.

(** *** The same record twice in a row *)

Lemma matches_merged info d :
  shaped_doc d →
  matches (info_title info) (info_url info) d = true →
  matches (info_title info) (info_url info) (merged info d) = true.
Proof.
  intros Hd Hm.
  destruct (merged_shaped info d Hd) as (Hd' & Ht & _ & Hu).
  apply matches_inv in Hm as [Hm|Hm].
  - apply matches_title; [done|]. by rewrite Ht.
  - apply matches_url; [done|]. rewrite Hu. by case_match.
Qed.

Lemma upserted_twice info now now' l :
  Forall shaped_doc l →
  upserted info now' (upserted info now l) = upserted info now l.
Proof.
  intros Hl. unfold upserted at 2 3.
  destruct (list_find _ l) as [[i d]|] eqn:Hfind.
  - pose proof Hfind as (Hi & Hm & Hfirst)%list_find_Some.
    assert (shaped_doc d) as Hd by by eapply Forall_lookup_1.
    assert (list_find (λ d, matches (info_title info) (info_url info) d)
              (<[i := merged info d]> l) = Some (i, merged info d)) as Hfind'.
    { apply list_find_Some. split; [|split].
      - apply list_lookup_insert_eq. by eapply lookup_lt_Some.
      - apply Is_true_true, matches_merged; [done|]. by apply Is_true_true.
      - intros j y Hj Hlt. rewrite list_lookup_insert_ne in Hj by lia.
        by apply (Hfirst j). }
    unfold upserted. rewrite Hfind'.
    rewrite merged_absorbed by (by apply merged_shaped || by apply merged_absorbs).
    by rewrite list_insert_insert_eq.
  - pose proof Hfind as Hnone. rewrite list_find_None in Hnone.
    assert (list_find (λ d, matches (info_title info) (info_url info) d)
              (l ++ [created info now]) = Some (length l, created info now))
      as Hfind'.
    { apply list_find_Some. split; [|split].
      - rewrite lookup_app_r by lia. by rewrite Nat.sub_diag.
      - apply Is_true_true, matches_title; [apply created_shaped|].
        unfold created, new_doc. simpl. by simplify_map_eq.
      - intros j y Hj Hlt. rewrite lookup_app_l in Hj by done.
        rewrite Forall_forall in Hnone.
        apply Hnone. by eapply list_elem_of_lookup_2. }
    unfold upserted. rewrite Hfind'.
    rewrite merged_absorbed by (apply created_shaped || apply created_absorbs).
    apply list_insert_id. rewrite lookup_app_r by lia.
    by rewrite Nat.sub_diag.
Qed.

(** X6. Merging the same record twice in a row is merging it once: on a
    catalogue of the shape the scraper writes, a second call of
    [add_or_update_document] with the arguments of the call before it finds
    the document that the first call created or updated, returns it and
    leaves the catalogue as it is. *)
Theorem second_merge_changes_nothing info now now' c :
  shaped c →
  upsert info now' (upsert info now c).1
  = ((upsert info now c).1, (upsert info now c).2).
Proof.
  intros Hc. rewrite (upsert_shaped info now c Hc). simpl.
  assert (Forall shaped_doc (documents_of c)) as Hl.
  { destruct Hc as (m & md & l & -> & _ & Hl & Hall). simpl. by rewrite Hl. }
  assert (shaped (with_documents (upserted info now (documents_of c)) c))
    as Hc' by by apply shaped_with_documents, upserted_shaped.
  rewrite (upsert_shaped info now' _ Hc').
  rewrite documents_of_with_documents by done.
  rewrite upserted_twice, with_documents_twice by done.
  do 2 f_equal. unfold returned, upserted.
  destruct (list_find _ (documents_of c)) as [[i d]|] eqn:Hfind.
  - pose proof Hfind as (Hi & Hm & Hfirst)%list_find_Some.
    assert (shaped_doc d) as Hd by by eapply Forall_lookup_1.
    assert (list_find (λ d, matches (info_title info) (info_url info) d)
              (<[i := merged info d]> (documents_of c))
            = Some (i, merged info d)) as ->.
    { apply list_find_Some. split; [|split].
      - apply list_lookup_insert_eq. by eapply lookup_lt_Some.
      - apply Is_true_true, matches_merged; [done|]. by apply Is_true_true.
      - intros j y Hj Hlt. rewrite list_lookup_insert_ne in Hj by lia.
        by apply (Hfirst j). }
    apply merged_absorbed; [by apply merged_shaped|by apply merged_absorbs].
  - pose proof Hfind as Hnone. rewrite list_find_None in Hnone.
    assert (list_find (λ d, matches (info_title info) (info_url info) d)
              (documents_of c ++ [created info now])
            = Some (length (documents_of c), created info now)) as ->.
    { apply list_find_Some. split; [|split].
      - rewrite lookup_app_r by lia. by rewrite Nat.sub_diag.
      - apply Is_true_true, matches_title; [apply created_shaped|].
        unfold created, new_doc. simpl. by simplify_map_eq.
      - intros j y Hj Hlt. rewrite lookup_app_l in Hj by done.
        rewrite Forall_forall in Hnone.
        apply Hnone. by eapply list_elem_of_lookup_2. }
    apply merged_absorbed; [apply created_shaped|apply created_absorbs].
Qed.

Lemma second_merge_changes_nothing_witness :
  upsert Sample.rerum_la Sample.t0 (upsert Sample.rerum_la Sample.t1
                                      Sample.annotated).1
  = ((upsert Sample.rerum_la Sample.t1 Sample.annotated).1,
     (upsert Sample.rerum_la Sample.t1 Sample.annotated).2).
Proof.
  apply (second_merge_changes_nothing Sample.rerum_la Sample.t1 Sample.t0
           Sample.annotated).
  apply shaped_with_documents; [apply shaped_default|].
  apply Forall_singleton.
  split; simpl; unfold list_or_absent; vm_compute; eauto.
Defined.

(** X7. When no stored document has the title or the URL of the record,
    [add_or_update_document] appends one document and returns it: it
    carries the title and the URL of the record, the reader's entries at
    their defaults ([read] false, [comments] empty, [quotes] empty), the
    clock reading as creation date, no ["urls"] entry, and the language of
    the record as its only known language, or none when the record has no
    language. *)
Theorem creation_defaults info now c :
  shaped c →
  document_exists (info_title info) (info_url info) c = Ok None →
  ∃ d,
    upsert info now c = (with_documents (documents_of c ++ [d]) c, Ok d) ∧
    field d "title" = Some (VStr (info_title info)) ∧
    field d "url" = Some (VStr (info_url info)) ∧
    field d "urls" = None ∧
    field d "read" = Some (VBool false) ∧
    field d "comments" = Some (VStr "") ∧
    field d "quotes" = Some (VList []) ∧
    field d "added_date" = Some (VStr now) ∧
    known_languages d
    = if String.eqb (info_language info) "" then []
      else [VStr (info_language info)].
Proof.
  intros Hc Hex. rewrite document_exists_shaped in Hex by done.
  injection Hex as Hfind.
  exists (created info now). split.
  - rewrite (upsert_shaped info now c Hc). unfold upserted, returned.
    by rewrite Hfind.
  - unfold known_languages, created, new_doc. simpl. simplify_map_eq.
    repeat split; try done. by destruct (String.eqb (info_language info) "").
Qed.

Lemma creation_defaults_witness :
  ∃ d,
    upsert Sample.aeterni_en Sample.t1 Sample.annotated
    = (with_documents (documents_of Sample.annotated ++ [d]) Sample.annotated,
       Ok d) ∧
    field d "title" = Some (VStr (info_title Sample.aeterni_en)) ∧
    field d "url" = Some (VStr (info_url Sample.aeterni_en)) ∧
    field d "urls" = None ∧
    field d "read" = Some (VBool false) ∧
    field d "comments" = Some (VStr "") ∧
    field d "quotes" = Some (VList []) ∧
    field d "added_date" = Some (VStr Sample.t1) ∧
    known_languages d
    = if String.eqb (info_language Sample.aeterni_en) "" then []
      else [VStr (info_language Sample.aeterni_en)].
Proof.
  apply (creation_defaults Sample.aeterni_en Sample.t1 Sample.annotated).
  - apply shaped_with_documents; [apply shaped_default|].
    apply Forall_singleton.
    split; simpl; unfold list_or_absent; vm_compute; eauto.
  - vm_compute. reflexivity.
Defined.

End StoreMore.

(** ** Further properties of persistence *)

Section PersistMore.

Implicit Types (e : env) (s : scraper) (c : value).

(** X8. [save_data] on a catalogue of the shape the scraper writes does
    not raise.  It sets ["total_documents"] to the number of stored
    documents and ["last_updated"] to the clock reading, leaves every other
    entry of the metadata, every other section of the catalogue and the
    documents as they are, and the data file then holds the catalogue that
    is in memory. *)
Theorem save_data_effect e s :
  shaped (documents s) →
  ∃ s',
    save_data e s = (s', Ok tt) ∧
    metadata_of (documents s') "total_documents"
    = Some (VInt (Z.of_nat (length (documents_of (documents s))))) ∧
    metadata_of (documents s') "last_updated"
    = Some (VStr (clock e (ticks s))) ∧
    (∀ key, key ≠ "total_documents" → key ≠ "last_updated" →
            metadata_of (documents s') key = metadata_of (documents s) key) ∧
    (∀ key, key ≠ "metadata" →
            field (documents s') key = field (documents s) key) ∧
    data_file s' = Holds (documents s').
Proof.
  intros Hs. rewrite save_data_shaped by done. eexists. split; [done|].
  cbn [documents data_file].
  destruct Hs as (m & md & l & -> & Hmd & Hl & _).
  unfold metadata_of, stamped, documents_of. simpl. rewrite Hmd, Hl. simpl.
  rewrite !lookup_insert_eq. simpl.
  split; [by rewrite lookup_insert_eq|].
  split; [by rewrite lookup_insert_ne, lookup_insert_eq|].
  split; [|split; [|done]].
  - intros key ??. by rewrite !lookup_insert_ne.
  - intros key ?. by rewrite lookup_insert_ne.
Qed.

Lemma save_data_effect_witness :
  ∃ s',
    save_data Sample.online Sample.fresh = (s', Ok tt) ∧
    metadata_of (documents s') "total_documents"
    = Some (VInt (Z.of_nat (length (documents_of (documents Sample.fresh))))) ∧
    metadata_of (documents s') "last_updated"
    = Some (VStr (clock Sample.online (ticks Sample.fresh))) ∧
    (∀ key, key ≠ "total_documents" → key ≠ "last_updated" →
            metadata_of (documents s') key
            = metadata_of (documents Sample.fresh) key) ∧
    (∀ key, key ≠ "metadata" →
            field (documents s') key = field (documents Sample.fresh) key) ∧
    data_file s' = Holds (documents s').
Proof.
  apply (save_data_effect Sample.online Sample.fresh). apply shaped_default.
Defined.

(** X9. What [save_data] writes, [load_existing_data] reads back: after a
    save of a catalogue of the shape the scraper writes, a scraper built
    on the data file starts with the very catalogue that was saved and
    prints no failure. *)
Theorem save_then_load e s :
  shaped (documents s) →
  init (data_file (save_data e s).1)
  = Ok (Scraper (documents (save_data e s).1)
          (Holds (documents (save_data e s).1)) 0 []).
Proof.
  intros Hs. rewrite save_data_shaped by done. cbn [fst documents data_file].
  by apply init_shaped, shaped_stamped.
Qed.

Lemma save_then_load_witness :
  init (data_file (save_data Sample.online Sample.fresh).1)
  = Ok (Scraper (documents (save_data Sample.online Sample.fresh).1)
          (Holds (documents (save_data Sample.online Sample.fresh).1)) 0 []).
Proof.
  apply (save_then_load Sample.online Sample.fresh). apply shaped_default.
Defined.

Lemma set_metadata_frame key v c key' :
  key' ≠ "metadata" → field (set_metadata key v c).1 key' = field c key'.
Proof.
  intros Hkey. unfold set_metadata.
  destruct (subscript c "metadata") as [[| | | | |md]|x]; try done.
  destruct c as [| | | | |m]; try done. simpl. by rewrite lookup_insert_ne.
Qed.

Lemma count_documents_state c : (count_documents c).1 = c.
Proof. unfold count_documents. by destruct (subscript c "documents"). Qed.

(** Lines 57-58 change nothing but the metadata, and neither the data
    file nor standard output. *)
Lemma update_metadata_frame e s :
  data_file (update_metadata e s).1 = data_file s ∧
  stdout (update_metadata e s).1 = stdout s ∧
  ∀ key, key ≠ "metadata" →
         field (documents (update_metadata e s).1) key
         = field (documents s) key.
Proof.
  destruct s as [c f n out].
  unfold update_metadata, bind, now, on_documents.
  cbn [documents data_file ticks stdout].
  pose proof (set_metadata_frame "last_updated" (VStr (clock e n)) c) as F1.
  destruct (set_metadata "last_updated" (VStr (clock e n)) c) as [c1 [[]|x1]];
    cbn [documents data_file ticks stdout fst] in *; [|done].
  pose proof (count_documents_state c1) as F2.
  destruct (count_documents c1) as [c2 [len|x2]];
    cbn [documents data_file ticks stdout fst] in *; subst c2; [|done].
  pose proof (set_metadata_frame "total_documents"
                (VInt (Z.of_nat len)) c1) as F3.
  destruct (set_metadata "total_documents" (VInt (Z.of_nat len)) c1)
    as [c3 r3]; cbn [documents data_file ticks stdout fst] in *.
  split; [done|]. split; [done|].
  intros key Hkey. by rewrite F3, F1.
Qed.

Lemma save_data_split e s :
  save_data e s
  = match update_metadata e s with
    | (s1, Ok _) =>
        (dump ;;; let* n := on_documents count_documents in print (Saved n)) s1
    | (s1, Raise x) => (s1, Raise x)
    end.
Proof.
  unfold save_data, update_metadata, bind.
  repeat case_match; simplify_eq; done.
Qed.

(** X10. [save_data] opens the data file after the two assignments of
    lines 57-58: when one of them raises, on a catalogue without its
    ["metadata"] or ["documents"] section for instance, [save_data]
    raises the same exception before the file is opened, so that the data
    file and standard output are as before the call, and so is every
    section of the catalogue other than the metadata. *)
Theorem failed_save_leaves_file e s s' x :
  update_metadata e s = (s', Raise x) →
  save_data e s = (s', Raise x) ∧
  data_file s' = data_file s ∧ stdout s' = stdout s ∧
  ∀ key, key ≠ "metadata" →
         field (documents s') key = field (documents s) key.
Proof.
  intros Hup. split; [by rewrite save_data_split, Hup|].
  pose proof (update_metadata_frame e s) as Hframe.
  by rewrite Hup in Hframe.
Qed.

Lemma failed_save_leaves_file_witness :
  save_data Sample.online
    (Scraper (VDict {["metadata" := VDict ∅]}) (Holds (VDict ∅)) 0 [])
  = (Scraper (VDict {["metadata" :=
                        VDict {["last_updated" := VStr Sample.t0]}]})
       (Holds (VDict ∅)) 1 [],
     Raise (KeyError "documents")).
Proof.
  apply (failed_save_leaves_file Sample.online
           (Scraper (VDict {["metadata" := VDict ∅]}) (Holds (VDict ∅)) 0 [])).
  reflexivity.
Defined.

(** [save_data] changes nothing but the metadata, whatever the catalogue
    and whatever its outcome. *)
Lemma save_data_frame e s key :
  key ≠ "metadata" →
  field (documents (save_data e s).1) key = field (documents s) key.
Proof.
  intros Hkey. rewrite save_data_split.
  destruct (update_metadata_frame e s) as (_ & _ & Hframe).
  specialize (Hframe key Hkey).
  destruct (update_metadata e s) as [[c1 f1 n1 out1] [[]|x]];
    cbn [documents fst] in *; [|done].
  unfold bind, dump, on_documents, print.
  cbn [documents data_file ticks stdout].
  pose proof (count_documents_state c1) as Hc.
  destruct (count_documents c1) as [c2 [len|x]];
    cbn [documents fst] in *; by subst c2.
Qed.

Lemma documents_of_field c c' :
  field c' "documents" = field c "documents" →
  documents_of c' = documents_of c.
Proof.
  unfold documents_of, field.
  destruct c; destruct c'; try done; intros Heq;
    rewrite ?Heq; try done; try (by rewrite <- Heq).
Qed.

End PersistMore.

(** ** Further properties of the orchestrator *)

Section RunMore.

Implicit Types (e : env) (s : scraper) (k : counters) (l : list value).

(** *** A catalogue without its documents *)

Lemma small_not_tenth p : p + 1 < 10 → ((p + 1) mod 10 =? 0) = false.
Proof. intros Hp. apply Nat.eqb_neq. rewrite Nat.mod_small by done. lia. Qed.

(** Fewer than ten candidates whose pages cannot be fetched are counted
    without a save, whatever the catalogue. *)
Lemma scrape_loop_short e pre k s :
  processed k + length pre < 10 →
  Forall (λ url, fetch_page e url = None) pre →
  ∃ out,
    scrape_loop e pre k s
    = (Scraper (documents s) (data_file s) (ticks s) (stdout s ++ out),
       Ok (Counters (processed k + length pre) (new_docs k)
             (updated_docs k))).
Proof.
  intros Hlen Hpre. revert k s Hlen.
  induction Hpre as [|url rest Hurl Hrest IH]; intros k s Hlen.
  - exists []. destruct k as [p n u], s as [c f t out]. simpl. unfold ret.
    by rewrite app_nil_r, Nat.add_0_r.
  - simpl in Hlen. simpl. unfold bind.
    rewrite scrape_one_unfetched by done.
    unfold count_and_checkpoint, bind, when, ret. cbn [processed].
    rewrite small_not_tenth by lia.
    destruct (IH (Counters (processed k + 1) (new_docs k) (updated_docs k))
                (Scraper (documents s) (data_file s) (ticks s)
                   (stdout s ++ [Processing (processed k + 1) url])))
      as [out Hloop]; [simpl; lia|].
    rewrite Hloop. cbn [documents data_file ticks stdout processed
                          new_docs updated_docs].
    exists (Processing (processed k + 1) url :: out).
    rewrite <- app_assoc. do 3 f_equal. lia.
Qed.

(** X11. A data file whose JSON object has no ["documents"] section is
    loaded as it is, without complaint: line 39 reads the section with a
    default.  When the first candidate whose page can be fetched is among
    the first ten candidates, so that no checkpoint comes before it, the
    run raises [KeyError] at that candidate, from the [document_exists]
    of line 276: the catalogue in memory and the data file are as they
    were loaded. *)
Theorem missing_documents_fails_late
    e (m : gmap string value) pre url rest :
  m !! "documents" = None →
  Forall (λ url, fetch_page e url = None) pre → length pre < 10 →
  is_Some (fetch_page e url) →
  init (Holds (VDict m)) = Ok (Scraper (VDict m) (Holds (VDict m)) 0 []) ∧
  ∃ s',
    scrape_urls e (pre ++ url :: rest)
      (Scraper (VDict m) (Holds (VDict m)) 0 [])
    = (s', Raise (KeyError "documents")) ∧
    documents s' = VDict m ∧ data_file s' = Holds (VDict m).
Proof.
  intros Hm Hpre Hlen [soup Hsoup]. split.
  - unfold init, load_existing_data, try_load, get_or. by rewrite Hm.
  - destruct (scrape_loop_short e pre (Counters 0 0 0)
                (Scraper (VDict m) (Holds (VDict m)) 0 []) Hlen Hpre)
      as [out Hloop].
    unfold scrape_urls. unfold bind at 1.
    rewrite scrape_loop_app, Hloop.
    cbn [documents data_file ticks stdout scrape_loop].
    unfold bind at 1.
    unfold scrape_one, extract_document_info. rewrite Hsoup.
    unfold record_candidate, bind, print, on_documents,
      document_exists, subscript.
    cbn [documents data_file ticks stdout info_title info_url].
    rewrite Hm. eexists. split; [done|]. done.
Qed.

Lemma missing_documents_fails_late_witness :
  init (Holds (VDict ∅)) = Ok (Scraper (VDict ∅) (Holds (VDict ∅)) 0 []) ∧
  ∃ s',
    scrape_urls
      (Sample.library (λ url,
         if String.eqb url Sample.url_rerum_en
         then Some Sample.rerum_page else None))
      ([Sample.url_aeterni_en; Sample.url_rerum_la]
       ++ Sample.url_rerum_en :: [Sample.seed_en])
      (Scraper (VDict ∅) (Holds (VDict ∅)) 0 [])
    = (s', Raise (KeyError "documents")) ∧
    documents s' = VDict ∅ ∧ data_file s' = Holds (VDict ∅).
Proof.
  apply (missing_documents_fails_late
           (Sample.library (λ url,
              if String.eqb url Sample.url_rerum_en
              then Some Sample.rerum_page else None))
           ∅ [Sample.url_aeterni_en; Sample.url_rerum_la]
           Sample.url_rerum_en [Sample.seed_en]).
  - reflexivity.
  - repeat constructor.
  - simpl. lia.
  - eexists. reflexivity.
Defined.

(** *** Where the run stops *)

(** X12. The run stops at the first candidate whose page can be fetched:
    on a catalogue of the shape the scraper writes, the call of line 278
    or 281 raises [TypeError] there, because the extracted record has
    the key ['type'] where [add_or_update_document] has the parameter
    [doc_type].  Nothing has been merged: the stored documents are as
    before the run.  The candidates before it have been counted and
    their lines printed, with a save after every tenth of them; the line
    of the candidate is the last one printed, no save follows it, and
    the data file holds the catalogue in memory when a save has taken
    place and is untouched otherwise. *)
Theorem run_stops_at_first_record e pre url rest s :
  shaped (documents s) →
  Forall (λ url, fetch_page e url = None) pre →
  is_Some (fetch_page e url) →
  ∃ s' out,
    scrape_urls e (pre ++ url :: rest) s = (s', Raise TypeError) ∧
    documents_of (documents s') = documents_of (documents s) ∧
    stdout s' = stdout s ++ out ++ [Processing (length pre + 1) url] ∧
    save_points 0 out = tenths 0 (length pre) ∧
    ticks s' = ticks s + length (tenths 0 (length pre)) ∧
    match tenths 0 (length pre) with
    | [] => documents s' = documents s ∧ data_file s' = data_file s
    | _ => data_file s' = Holds (documents s')
    end.
Proof.
  intros Hs Hpre Hurl.
  destruct (scrape_loop_stops e pre url rest (Counters 0 0 0) s Hs Hpre Hurl)
    as (s1 & out & _ & Hloop & Hs1 & Hd1 & Hout & Hpts & Ht & Hfile).
  unfold scrape_urls, bind. rewrite Hloop.
  eexists _, out. split; [done|].
  cbn [documents data_file ticks stdout processed] in *.
  split; [done|]. split; [by rewrite Hout, app_assoc|].
  split; [|done].
  specialize (Hpts []). rewrite app_nil_r in Hpts. rewrite Hpts. simpl.
  by rewrite app_nil_r.
Qed.

Lemma run_stops_at_first_record_witness :
  ∃ s' out,
    scrape_urls Sample.retitled
      ([Sample.url_aeterni_en] ++ Sample.url_rerum_la :: [Sample.url_rerum_en])
      (Scraper Sample.annotated Absent 0 [])
    = (s', Raise TypeError) ∧
    documents_of (documents s')
    = documents_of (documents (Scraper Sample.annotated Absent 0 [])) ∧
    stdout s' = [] ++ out ++ [Processing 2 Sample.url_rerum_la] ∧
    save_points 0 out = tenths 0 1 ∧
    ticks s' = 0 + length (tenths 0 1) ∧
    match tenths 0 1 with
    | [] => documents s' = Sample.annotated ∧ data_file s' = Absent
    | _ => data_file s' = Holds (documents s')
    end.
Proof.
  apply (run_stops_at_first_record Sample.retitled [Sample.url_aeterni_en]
           Sample.url_rerum_la [Sample.url_rerum_en]
           (Scraper Sample.annotated Absent 0 [])).
  - apply shaped_with_documents; [apply shaped_default|].
    apply Forall_singleton.
    split; simpl; unfold list_or_absent; vm_compute; eauto.
  - repeat constructor.
  - eexists. reflexivity.
Defined.

(** *** What a run leaves of the catalogue *)

Lemma count_and_checkpoint_frame e k s key :
  key ≠ "metadata" →
  field (documents (count_and_checkpoint e k s).1) key
  = field (documents s) key.
Proof.
  intros Hkey. unfold count_and_checkpoint, bind, when, ret.
  cbn [processed]. destruct ((processed k + 1) mod 10 =? 0); [|done].
  pose proof (save_data_frame e s key Hkey) as Hsave.
  by destruct (save_data e s) as [s1 [[]|x]].
Qed.

Lemma scrape_one_frame e url k s key :
  key ≠ "metadata" →
  field (documents (scrape_one e url k s).1) key = field (documents s) key.
Proof.
  intros Hkey. destruct (fetch_page e url) as [soup|] eqn:Hsoup.
  - destruct (scrape_one_fetched e url k s soup Hsoup) as (x & -> & _). done.
  - rewrite scrape_one_unfetched by done.
    by rewrite count_and_checkpoint_frame.
Qed.

Lemma scrape_loop_frame e urls k s key :
  key ≠ "metadata" →
  field (documents (scrape_loop e urls k s).1) key = field (documents s) key.
Proof.
  intros Hkey. revert k s.
  induction urls as [|url rest IH]; intros k s; simpl; [done|].
  unfold bind. pose proof (scrape_one_frame e url k s key Hkey) as Hone.
  destruct (scrape_one e url k s) as [s1 [k1|x]]; simpl in Hone; [|done].
  by rewrite IH.
Qed.

(** X13. A run changes no stored document: whatever the catalogue in
    memory, the candidate URLs and what the network serves, and whether
    the run returns or raises, the list of documents after the run is the
    list before it, with what the reader wrote in it, and so is every
    section of the catalogue other than the metadata, which [save_data]
    stamps. *)
Theorem run_keeps_documents e urls s :
  documents_of (documents (scrape_urls e urls s).1)
  = documents_of (documents s) ∧
  ∀ key, key ≠ "metadata" →
         field (documents (scrape_urls e urls s).1) key
         = field (documents s) key.
Proof.
  assert (∀ key, key ≠ "metadata" →
                 field (documents (scrape_urls e urls s).1) key
                 = field (documents s) key) as Hframe.
  { intros key Hkey. unfold scrape_urls, bind.
    pose proof (scrape_loop_frame e urls (Counters 0 0 0) s key Hkey) as Hloop.
    destruct (scrape_loop e urls (Counters 0 0 0) s) as [s1 [k1|x]];
      simpl in Hloop; [|done].
    pose proof (save_data_frame e s1 key Hkey) as Hsave.
    destruct (save_data e s1) as [s2 [[]|x]]; simpl in *; congruence. }
  split; [|done]. by apply documents_of_field, Hframe.
Qed.

(** *** The counters *)

Lemma count_and_checkpoint_ok e k s s' k' :
  count_and_checkpoint e k s = (s', Ok k') →
  k' = Counters (processed k + 1) (new_docs k) (updated_docs k).
Proof.
  unfold count_and_checkpoint, bind, when, ret. cbn [processed].
  destruct ((processed k + 1) mod 10 =? 0).
  - destruct (save_data e s) as [s1 [[]|x]]; by intros [= <- <-].
  - by intros [= <- <-].
Qed.

Lemma scrape_one_ok e url k s s' k' :
  scrape_one e url k s = (s', Ok k') →
  fetch_page e url = None ∧
  k' = Counters (processed k + 1) (new_docs k) (updated_docs k).
Proof.
  intros Hone. destruct (fetch_page e url) as [soup|] eqn:Hsoup.
  - destruct (scrape_one_fetched e url k s soup Hsoup) as (x & Hx & _).
    rewrite Hx in Hone. discriminate Hone.
  - split; [done|]. rewrite scrape_one_unfetched in Hone by done.
    by eapply count_and_checkpoint_ok.
Qed.

Lemma scrape_loop_ok e urls k s s' k' :
  scrape_loop e urls k s = (s', Ok k') →
  Forall (λ url, fetch_page e url = None) urls ∧
  k' = Counters (processed k + length urls) (new_docs k) (updated_docs k).
Proof.
  revert k s. induction urls as [|url rest IH]; intros k s; simpl.
  - intros [= <- <-]. split; [done|]. destruct k. simpl.
    by rewrite Nat.add_0_r.
  - unfold bind. destruct (scrape_one e url k s) as [s1 [k1|x]] eqn:Hone;
      [|done].
    intros Hloop. apply scrape_one_ok in Hone as [Hnone ->].
    apply IH in Hloop as [Hrest ->]. split; [by constructor|].
    simpl. f_equal. lia.
Qed.

(** X22. The counters of new and of updated documents never count: when
    a run returns, whatever the catalogue it started in, no page of a
    candidate URL could be fetched, every candidate has been counted as
    processed, and the two other counters are zero.  The increments of
    lines 279 and 282 follow a call that always raises. *)
Theorem completed_run_counted_nothing e urls s s' k :
  scrape_urls e urls s = (s', Ok k) →
  Forall (λ url, fetch_page e url = None) urls ∧
  k = Counters (length urls) 0 0.
Proof.
  unfold scrape_urls, bind.
  destruct (scrape_loop e urls (Counters 0 0 0) s) as [s1 [k1|x]] eqn:Hloop;
    [|done].
  apply scrape_loop_ok in Hloop as [Hnone ->].
  destruct (save_data e s1) as [s2 [[]|x]]; [|done].
  unfold ret. by intros [= <- <-].
Qed.

Lemma completed_run_counted_nothing_witness :
  Forall (λ url, fetch_page Sample.offline url = None) Sample.urls25 ∧
  Counters 25 0 0 = Counters (length Sample.urls25) 0 0.
Proof.
  apply (completed_run_counted_nothing Sample.offline Sample.urls25
           Sample.fresh
           (scrape_urls Sample.offline Sample.urls25 Sample.fresh).1).
  vm_compute. reflexivity.
Defined.

(** *** Runs without a page *)

(** X14. A failed fetch only skips its candidate: when no page of the
    candidate URLs can be fetched, the run on a catalogue of the shape the
    scraper writes does not raise, counts nothing as new or updated,
    leaves the stored documents as they are and still writes the data
    file. *)
Theorem unfetchable_run_keeps_documents e urls s :
  shaped (documents s) →
  (∀ url, url ∈ urls → fetch_page e url = None) →
  ∃ s' k,
    scrape_urls e urls s = (s', Ok k) ∧
    new_docs k = 0 ∧ updated_docs k = 0 ∧
    documents_of (documents s') = documents_of (documents s) ∧
    data_file s' = Holds (documents s').
Proof.
  intros Hs Hnone. apply Forall_forall in Hnone.
  destruct (scrape_loop_unfetched e urls (Counters 0 0 0) s Hs Hnone)
    as (s1 & out & Hloop & Hs1 & Hd & _).
  unfold scrape_urls, bind. rewrite Hloop, save_data_shaped by done.
  eexists _, _. split; [done|]. cbn [documents data_file new_docs updated_docs].
  by rewrite documents_of_stamped.
Qed.

Lemma unfetchable_run_keeps_documents_witness :
  ∃ s' k,
    scrape_urls Sample.offline Sample.urls25
      (Scraper Sample.annotated Absent 0 []) = (s', Ok k) ∧
    new_docs k = 0 ∧ updated_docs k = 0 ∧
    documents_of (documents s')
    = documents_of (documents (Scraper Sample.annotated Absent 0 [])) ∧
    data_file s' = Holds (documents s').
Proof.
  apply (unfetchable_run_keeps_documents Sample.offline Sample.urls25
           (Scraper Sample.annotated Absent 0 [])).
  - apply shaped_with_documents; [apply shaped_default|].
    apply Forall_singleton.
    split; simpl; unfold list_or_absent; vm_compute; eauto.
  - intros url _. reflexivity.
Defined.

Lemma tenths_last n : 0 < n → n mod 10 = 0 → tenths 0 n ≠ [].
Proof.
  intros Hpos Hmod Hnil.
  assert (n ∈ tenths 0 n) as Hin; [|rewrite Hnil in Hin; by apply elem_of_nil in Hin].
  unfold tenths. apply list_elem_of_filter. split; [done|].
  apply elem_of_seq. lia.
Qed.

(** X25. The checkpoints of a run in which no page can be fetched: on a
    catalogue of the shape the scraper writes, the run counts every
    candidate, and [save_data] runs after each candidate whose number is
    a multiple of ten and once more after the loop.  Each of these saves
    reads the clock and writes the file: after the candidates [10, 20,
    ...] the data file holds the catalogue in memory, and so it does at
    the end.  For 25 candidates these are the saves after candidates 10
    and 20 and the final one. *)
Theorem checkpoints_without_pages e urls s :
  shaped (documents s) →
  Forall (λ url, fetch_page e url = None) urls →
  ∃ s' out,
    scrape_urls e urls s = (s', Ok (Counters (length urls) 0 0)) ∧
    stdout s' = stdout s ++ out ∧
    save_points 0 out = tenths 0 (length urls) ++ [length urls] ∧
    ticks s' = ticks s + length (tenths 0 (length urls)) + 1 ∧
    data_file s' = Holds (documents s') ∧
    (∀ n, 0 < n → n ≤ length urls → n mod 10 = 0 →
          let sn := (scrape_loop e (take n urls) (Counters 0 0 0) s).1 in
          data_file sn = Holds (documents sn)) ∧
    (length urls = 25 → save_points 0 out = [10; 20; 25]).
Proof.
  intros Hs Hnone.
  destruct (scrape_loop_unfetched e urls (Counters 0 0 0) s Hs Hnone)
    as (s1 & out & Hloop & Hs1 & Hd & Hout & Hpts & Ht & _).
  unfold scrape_urls, bind. rewrite Hloop, save_data_shaped by done.
  unfold ret. simpl in Hpts, Ht.
  eexists _, (out ++ [Saved _]). split; [done|].
  cbn [documents data_file ticks stdout].
  split; [by rewrite Hout, app_assoc|].
  split; [by rewrite Hpts|]. split; [lia|]. split; [done|]. split.
  - intros n Hpos Hn Hmod.
    destruct (scrape_loop_unfetched e (take n urls) (Counters 0 0 0) s Hs)
      as (sn & outn & Hloopn & _ & _ & _ & _ & _ & Hfile);
      [by apply Forall_take|].
    rewrite Hloopn. cbn [fst processed] in *.
    rewrite length_take, Nat.min_l in Hfile by done.
    pose proof (tenths_last n Hpos Hmod).
    by destruct (tenths 0 n).
  - intros Hlen. rewrite Hpts, Hlen. reflexivity.
Qed.

Lemma checkpoints_without_pages_witness :
  ∃ s' out,
    scrape_urls Sample.offline Sample.urls25 Sample.fresh
    = (s', Ok (Counters (length Sample.urls25) 0 0)) ∧
    stdout s' = stdout Sample.fresh ++ out ∧
    save_points 0 out
    = tenths 0 (length Sample.urls25) ++ [length Sample.urls25] ∧
    ticks s'
    = ticks Sample.fresh + length (tenths 0 (length Sample.urls25)) + 1 ∧
    data_file s' = Holds (documents s') ∧
    (∀ n, 0 < n → n ≤ length Sample.urls25 → n mod 10 = 0 →
          let sn := (scrape_loop Sample.offline (take n Sample.urls25)
                       (Counters 0 0 0) Sample.fresh).1 in
          data_file sn = Holds (documents sn)) ∧
    (length Sample.urls25 = 25 → save_points 0 out = [10; 20; 25]).
Proof.
  apply (checkpoints_without_pages Sample.offline Sample.urls25 Sample.fresh).
  - apply shaped_default.
  - apply Forall_forall. intros url _. reflexivity.
Defined.

End RunMore.
(** ** More on the metadata extractor *)

Section ExtractMore.

Implicit Types (s t : string) (e : env) (soup : page).

(** *** The title *)

Lemma first_title_first soup before sel after text :
  (∀ q t, q ∈ before → select_text soup q = Some t → PyStr.blank t = true) →
  select_text soup sel = Some text → PyStr.blank text = false →
  first_title soup (before ++ sel :: after) = PyStr.strip text.
Proof.
  intros Hbefore Hsel Hb.
  induction before as [|q before IH]; simpl.
  - rewrite Hsel. destruct (PyStr.strip text) eqn:Hs; [|done].
    apply strip_empty in Hs. congruence.
  - assert (first_title soup (before ++ sel :: after) = PyStr.strip text)
      as Hrest.
    { apply IH. intros q' t' Hin. apply Hbefore, elem_of_cons. by right. }
    destruct (select_text soup q) as [t|] eqn:Hq; [|done].
    assert (PyStr.strip t = "") as ->; [|done].
    apply strip_empty, (Hbefore q); [apply elem_of_cons; by left|done].
Qed.

(** X15. The title selectors are tried in the order of the source and the
    first one that finds text other than whitespace gives the title:
    when every selector before [sel] finds nothing or only whitespace and
    [sel] finds [text], the title is [text] stripped and tidied, whatever
    the later selectors find. *)
Theorem title_from_first_heading e url soup info before sel after text :
  fetch_page e url = Some soup →
  extract_document_info e url = Some info →
  title_selectors = before ++ sel :: after →
  (∀ q t, q ∈ before → select_text soup q = Some t → PyStr.blank t = true) →
  select_text soup sel = Some text → PyStr.blank text = false →
  info_title info = PyStr.strip (PyStr.sub_ws false (PyStr.strip text)).
Proof.
  unfold extract_document_info. intros -> [= <-] Hsplit Hbefore Hsel Hb.
  simpl. unfold extract_title.
  rewrite Hsplit, (first_title_first soup before sel after text) by done.
  destruct (PyStr.strip text) eqn:Hs; [|done].
  apply strip_empty in Hs. congruence.
Qed.

Lemma title_from_first_heading_witness :
  ∃ info,
    extract_document_info Sample2.late Sample.url_rerum_en = Some info ∧
    info_title info = "Rerum Novarum".
Proof.
  eexists. split; [reflexivity|].
  rewrite (title_from_first_heading Sample2.late Sample.url_rerum_en
             Sample2.late_heading _
             ["h1"; "h2.doc_title"; ".doc_title"; ".title"] "title"
             ["h2"; ".content h1"; ".content h2"] " Rerum  Novarum "
             eq_refl eq_refl eq_refl).
  - reflexivity.
  - intros q t Hq. simpl.
    repeat (apply elem_of_cons in Hq as [->|Hq];
              [simpl; intros ?; by simplify_eq|]).
    by apply elem_of_nil in Hq.
  - reflexivity.
  - reflexivity.
Defined.

Lemma starts_ws_lstrip s : starts_ws (PyStr.lstrip s) = false.
Proof.
  induction s as [|a s IH]; simpl; [done|].
  destruct (PyStr.is_space a) eqn:Ha; [done|]. simpl. by rewrite Ha.
Qed.

Lemma rstrip_keeps_start s :
  starts_ws s = false → starts_ws (PyStr.rstrip s) = false.
Proof.
  destruct s as [|a s]; simpl; [done|]. intros Ha.
  destruct (PyStr.rstrip s); [|done]. by rewrite Ha.
Qed.

Lemma ends_ws_rstrip s : ends_ws (PyStr.rstrip s) = false.
Proof.
  induction s as [|a s IH]; simpl; [done|].
  destruct (PyStr.rstrip s) as [|b r] eqn:Hr.
  - destruct (PyStr.is_space a) eqn:Ha; [done|]. simpl. by rewrite Ha.
  - exact IH.
Qed.

Lemma only_spaces_sub_ws in_run s :
  only_spaces (PyStr.sub_ws in_run s) = true.
Proof.
  revert in_run. induction s as [|a s IH]; intros in_run; simpl; [done|].
  destruct (PyStr.is_space a) eqn:Ha.
  - destruct in_run; [done|]. simpl. by rewrite IH.
  - simpl. by rewrite Ha, IH.
Qed.

Lemma only_spaces_lstrip s :
  only_spaces s = true → only_spaces (PyStr.lstrip s) = true.
Proof.
  induction s as [|a s IH]; simpl; [done|].
  intros [Ha Hs]%andb_prop. destruct (PyStr.is_space a) eqn:Hsp; [auto|].
  simpl. by rewrite Hsp, Hs.
Qed.

Lemma only_spaces_rstrip s :
  only_spaces s = true → only_spaces (PyStr.rstrip s) = true.
Proof.
  induction s as [|a s IH]; simpl; [done|].
  intros [Ha Hs]%andb_prop. specialize (IH Hs).
  destruct (PyStr.rstrip s) as [|b r] eqn:Hr.
  - destruct (PyStr.is_space a) eqn:Hsp; [done|]. simpl. by rewrite Hsp.
  - change (only_spaces (String a (String b r)))
      with ((negb (PyStr.is_space a) || Ascii.eqb a " ")
            && only_spaces (String b r)).
    by rewrite Ha, IH.
Qed.

(** X16. The title of every extracted record is trimmed: it neither
    starts nor ends with a whitespace character, and the only whitespace
    character in it is the space.  As no two adjacent characters of the
    title are whitespace, its words are separated by single spaces. *)
Theorem title_trimmed e url info :
  extract_document_info e url = Some info →
  starts_ws (info_title info) = false ∧
  ends_ws (info_title info) = false ∧
  only_spaces (info_title info) = true.
Proof.
  unfold extract_document_info.
  destruct (fetch_page e url) as [soup|]; [|done]. intros [= <-]. simpl.
  unfold extract_title, PyStr.strip. split; [|split].
  - apply rstrip_keeps_start, starts_ws_lstrip.
  - apply ends_ws_rstrip.
  - apply only_spaces_rstrip, only_spaces_lstrip, only_spaces_sub_ws.
Qed.

Lemma title_trimmed_witness :
  ∃ info,
    extract_document_info Sample.online Sample.url_rerum_en = Some info ∧
    starts_ws (info_title info) = false ∧
    ends_ws (info_title info) = false ∧
    only_spaces (info_title info) = true.
Proof.
  eexists. split; [reflexivity|].
  apply (title_trimmed Sample.online Sample.url_rerum_en). reflexivity.
Defined.

(** *** The date *)

Lemma first_date_cases e patterns text :
  (first_date e patterns text = "" ∧
   Forall (λ p, re_search e p text = None) patterns)
  ∨ ∃ before p after,
      patterns = before ++ p :: after ∧
      Forall (λ q, re_search e q text = None) before ∧
      re_search e p text = Some (first_date e patterns text).
Proof.
  induction patterns as [|p rest IH]; simpl.
  - by left.
  - destruct (re_search e p text) as [found|] eqn:Hp.
    + right. by exists [], p, rest.
    + destruct IH as [[Hnone Hall]|(before & q & after & -> & Hall & Hq)].
      * left. split; [done|]. by constructor.
      * right. exists (p :: before), q, after.
        split; [done|]. split; [by constructor|done].
Qed.

(** X17. The date of an extracted record is the text that the first date
    pattern with a match in the page text matches, the patterns being
    tried in the order day-month-year, ISO, month-day-year; it is empty
    when no pattern has a match. *)
Theorem date_from_first_pattern e url soup info :
  fetch_page e url = Some soup →
  extract_document_info e url = Some info →
  (info_date info = "" ∧
   Forall (λ p, re_search e p (page_text soup) = None) date_patterns)
  ∨ ∃ before p after,
      date_patterns = before ++ p :: after ∧
      Forall (λ q, re_search e q (page_text soup) = None) before ∧
      re_search e p (page_text soup) = Some (info_date info).
Proof.
  unfold extract_document_info. intros -> [= <-].
  exact (first_date_cases e date_patterns (page_text soup)).
Qed.

Lemma date_from_first_pattern_witness :
  ∃ info,
    extract_document_info Sample2.iso_dated Sample.url_rerum_en = Some info ∧
    ((info_date info = "" ∧
      Forall (λ p, re_search Sample2.iso_dated p
                     (page_text Sample.rerum_page) = None) date_patterns)
     ∨ ∃ before p after,
         date_patterns = before ++ p :: after ∧
         Forall (λ q, re_search Sample2.iso_dated q
                        (page_text Sample.rerum_page) = None) before ∧
         re_search Sample2.iso_dated p (page_text Sample.rerum_page)
         = Some (info_date info)).
Proof.
  eexists. split; [reflexivity|].
  apply (date_from_first_pattern Sample2.iso_dated Sample.url_rerum_en
           Sample.rerum_page); reflexivity.
Defined.

(** *** The description *)

Lemma length_append s t :
  String.length (String.append s t) = String.length s + String.length t.
Proof.
  induction s as [|a s IH]; [done|].
  change (S (String.length (String.append s t))
          = S (String.length s + String.length t)).
  by rewrite IH.
Qed.

Lemma starts_ws_slice n s t :
  starts_ws s = false →
  starts_ws (String.append (PyStr.slice_to (S n) s) t) = starts_ws t
  ∨ starts_ws (String.append (PyStr.slice_to (S n) s) t) = false.
Proof.
  destruct s as [|a s]; [by left|]. intros Ha. by right.
Qed.

(** X18. The description of an extracted record is bounded: it is empty
    or has between 51 and 203 characters, and it does not start with a
    whitespace character. *)
Theorem description_bounded e url info :
  extract_document_info e url = Some info →
  (info_description info = ""
   ∨ 51 ≤ String.length (info_description info) ≤ 203) ∧
  starts_ws (info_description info) = false.
Proof.
  unfold extract_document_info.
  destruct (fetch_page e url) as [soup|]; [|done]. intros [= <-].
  cbn [info_description]. unfold extract_description.
  destruct (select_text soup "p") as [text|]; [|by split; [left|]].
  cbv zeta.
  assert (starts_ws (PyStr.strip text) = false) as Hstart
    by apply rstrip_keeps_start, starts_ws_lstrip.
  destruct (50 <? String.length (PyStr.strip text)) eqn:H50;
    [|by split; [left|]].
  apply Nat.ltb_lt in H50.
  destruct (200 <? String.length (PyStr.strip text)) eqn:H200.
  - apply Nat.ltb_lt in H200. split.
    + right. rewrite length_append.
      destruct (slice_to_prefix 200 (PyStr.strip text)) as [-> _]; [lia|].
      simpl. lia.
    + by destruct (starts_ws_slice 199 (PyStr.strip text) "..." Hstart)
        as [->| ->].
  - apply Nat.ltb_ge in H200. split; [right; lia|done].
Qed.

Lemma description_bounded_witness :
  ∃ info,
    extract_document_info Sample.online Sample.url_rerum_en = Some info ∧
    (info_description info = ""
     ∨ 51 ≤ String.length (info_description info) ≤ 203) ∧
    starts_ws (info_description info) = false.
Proof.
  eexists. split; [reflexivity|].
  apply (description_bounded Sample.online Sample.url_rerum_en). reflexivity.
Defined.

End ExtractMore.

(** ** Link discovery *)

Section Links.

Implicit Types (e : env) (soup : page).

(** X19. The candidate URLs are exactly the links of the seed pages that
    could be fetched, made absolute against their seed page, that pass
    the filter: the path names Leo XIII, the URL ends in [.html], it does
    not contain [/index.html], and it is not the seed page on which the
    link stands. *)
Theorem candidates_characterised e url :
  url ∈ find_pope_leo_pages e ↔
  ∃ seed soup href,
    seed ∈ search_urls ∧ fetch_page e seed = Some soup ∧
    href ∈ hrefs soup ∧ urljoin e seed href = url ∧
    accepted seed url = true.
Proof.
  unfold find_pope_leo_pages.
  rewrite elem_of_list_to_set, list_elem_of_join. split.
  - intros (l & Hurl & Hl).
    apply list_elem_of_fmap in Hl as (seed & -> & Hseed).
    unfold links_of in Hurl.
    destruct (fetch_page e seed) as [soup|] eqn:Hfetch;
      [|by apply elem_of_nil in Hurl].
    apply list_elem_of_filter in Hurl as [Hacc Hin].
    apply list_elem_of_fmap in Hin as (href & -> & Hhref).
    exists seed, soup, href. repeat split; try done.
    by apply Is_true_true.
  - intros (seed & soup & href & Hseed & Hfetch & Hhref & <- & Hacc).
    exists (links_of e seed). split.
    + unfold links_of. rewrite Hfetch.
      apply list_elem_of_filter. split; [by apply Is_true_true|].
      apply list_elem_of_fmap. by exists href.
    + apply list_elem_of_fmap. by exists seed.
Qed.

Lemma seed_accepted seed seed' :
  seed ∈ search_urls → seed' ∈ search_urls → seed ≠ seed' →
  accepted seed seed' = true.
Proof.
  intros Hseed Hseed' Hne. unfold accepted.
  assert (String.eqb seed' seed = false) as ->.
  { apply String.eqb_neq. congruence. }
  unfold search_urls in Hseed'.
  repeat (apply elem_of_cons in Hseed' as [->|Hseed']; [by vm_compute|]).
  by apply elem_of_nil in Hseed'.
Qed.

(** X20. The filter does not tell a listing page from a document: none of
    the ten seed pages has [/index.html] in its URL, so a seed page that
    is linked from another seed page that could be fetched is a candidate
    URL and is processed as a document. *)
Theorem linked_seed_is_candidate e seed seed' soup href :
  seed ∈ search_urls → seed' ∈ search_urls → seed ≠ seed' →
  fetch_page e seed = Some soup → href ∈ hrefs soup →
  urljoin e seed href = seed' →
  seed' ∈ find_pope_leo_pages e.
Proof.
  intros Hseed Hseed' Hne Hfetch Hhref Hjoin.
  unfold find_pope_leo_pages.
  rewrite elem_of_list_to_set, list_elem_of_join.
  exists (links_of e seed). split.
  - unfold links_of. rewrite Hfetch.
    apply list_elem_of_filter. split.
    + apply Is_true_true. by apply seed_accepted.
    + apply list_elem_of_fmap. by exists href.
  - apply list_elem_of_fmap. by exists seed.
Qed.

Lemma linked_seed_is_candidate_witness :
  String.append base_url "/content/leo-xiii/la/encyclicals.index.html"
  ∈ find_pope_leo_pages
      (Sample.library (λ _, Some
         {| select_text := λ _, None; page_text := "";
            hrefs := [String.append base_url
                        "/content/leo-xiii/la/encyclicals.index.html"] |})).
Proof.
  apply (linked_seed_is_candidate _
           (String.append base_url "/content/leo-xiii/en/encyclicals.index.html")
           (String.append base_url "/content/leo-xiii/la/encyclicals.index.html")
           {| select_text := λ _, None; page_text := "";
              hrefs := [String.append base_url
                          "/content/leo-xiii/la/encyclicals.index.html"] |}
           (String.append base_url "/content/leo-xiii/la/encyclicals.index.html")).
  - unfold search_urls. simpl. apply elem_of_cons. by left.
  - unfold search_urls. simpl. apply elem_of_cons. right.
    apply elem_of_cons. by left.
  - by vm_compute.
  - reflexivity.
  - apply elem_of_cons. by left.
  - reflexivity.
Defined.

Lemma no_seed_no_links e :
  (∀ seed, seed ∈ search_urls → fetch_page e seed = None) →
  find_pope_leo_pages e = ∅.
Proof.
  intros Hnone. unfold find_pope_leo_pages.
  assert (mjoin (links_of e <$> search_urls) = []) as ->; [|done].
  induction search_urls as [|seed rest IH]; [done|].
  change (links_of e seed ++ mjoin (links_of e <$> rest) = []).
  rewrite IH.
  - unfold links_of. rewrite Hnone; [done|]. apply elem_of_cons. by left.
  - intros seed' Hin. apply Hnone, elem_of_cons. by right.
Qed.

(** X21. When none of the seed pages can be fetched there is no candidate
    URL: the run processes nothing and counts nothing, and it still saves,
    so that the data file is written with a new [last_updated] and the
    stored documents as they were. *)
Theorem run_without_seeds e order s :
  (∀ seed, seed ∈ search_urls → fetch_page e seed = None) →
  enumerates order → shaped (documents s) →
  scrape_all_documents e order s
  = (Scraper (stamped (clock e (ticks s)) (documents s))
       (Holds (stamped (clock e (ticks s)) (documents s)))
       (S (ticks s))
       (stdout s ++ [Saved (length (documents_of (documents s)))]),
     Ok (Counters 0 0 0)).
Proof.
  intros Hnone Horder Hs. unfold scrape_all_documents.
  rewrite no_seed_no_links by done.
  assert (order ∅ = []) as ->.
  { destruct (order ∅) as [|x l] eqn:Hl; [done|].
    destruct (Horder ∅) as [_ Hin]. rewrite Hl in Hin.
    exfalso. eapply (not_elem_of_empty (C:=gset string)), Hin.
    apply elem_of_cons. by left. }
  unfold scrape_urls. simpl. unfold bind, ret.
  by rewrite save_data_shaped.
Qed.

Lemma run_without_seeds_witness :
  scrape_all_documents Sample.offline elements
    (Scraper Sample.annotated Absent 0 [])
  = (Scraper (stamped Sample.t0 Sample.annotated)
       (Holds (stamped Sample.t0 Sample.annotated)) 1 [Saved 1],
     Ok (Counters 0 0 0)).
Proof.
  apply (run_without_seeds Sample.offline elements
           (Scraper Sample.annotated Absent 0 [])).
  - intros seed _. reflexivity.
  - apply enumerates_elements.
  - apply shaped_with_documents; [apply shaped_default|].
    apply Forall_singleton.
    split; simpl; unfold list_or_absent; vm_compute; eauto.
Defined.

End Links.

(** ** The program and its data file *)

Section Pipeline.

Implicit Types (e : env) (s : scraper) (l : list value).

(** The candidates up to the first one whose page can be fetched. *)
Lemma first_fetched e urls :
  Forall (λ url, fetch_page e url = None) urls
  ∨ ∃ pre url rest,
      urls = pre ++ url :: rest ∧
      Forall (λ url, fetch_page e url = None) pre ∧
      is_Some (fetch_page e url).
Proof.
  induction urls as [|url rest IH]; [by left|].
  destruct (fetch_page e url) as [soup|] eqn:Hurl.
  - right. exists [], url, rest. rewrite Hurl. by eauto.
  - destruct IH as [Hall|(pre & url' & rest' & -> & Hpre & Hsome)].
    + left. by constructor.
    + right. exists (url :: pre), url', rest'.
      split; [done|]. split; [by constructor|done].
Qed.

(** A run on a shaped catalogue returns or raises the [TypeError] of the
    call; it leaves a shaped catalogue in memory, and the data file holds
    it when a save has taken place; otherwise neither has changed. *)
Lemma scrape_urls_in_step e urls s :
  shaped (documents s) →
  ∃ s' r,
    scrape_urls e urls s = (s', r) ∧
    (r = Ok (Counters (length urls) 0 0) ∨ r = Raise TypeError) ∧
    shaped (documents s') ∧
    (data_file s' = Holds (documents s')
     ∨ documents s' = documents s ∧ data_file s' = data_file s).
Proof.
  intros Hs.
  destruct (first_fetched e urls)
    as [Hnone|(pre & url & rest & -> & Hpre & Hurl)].
  - destruct (scrape_loop_unfetched e urls (Counters 0 0 0) s Hs Hnone)
      as (s1 & out & Hloop & Hs1 & _).
    unfold scrape_urls, bind. rewrite Hloop, save_data_shaped by done.
    eexists _, _. split; [done|]. cbn [documents data_file].
    split; [by left|]. split; [by apply shaped_stamped|by left].
  - destruct (scrape_loop_stops e pre url rest (Counters 0 0 0) s Hs Hpre Hurl)
      as (s1 & out & _ & Hloop & Hs1 & _ & _ & _ & _ & Hfile).
    unfold scrape_urls, bind. rewrite Hloop.
    eexists _, _. split; [done|]. cbn [documents data_file].
    split; [by right|]. split; [done|].
    destruct (tenths _ _); [by right|by left].
Qed.

(** X23. The data file keeps its shape and stays in step with the
    catalogue in memory.  On no data file, or on a data file that holds a
    catalogue of the shape the scraper writes, the scraper is built; and
    the loop and the final save of [scrape_all_documents] over any
    candidate URLs, whatever the network serves, return with every
    candidate counted or raise the [TypeError] of the call of line 278 or
    281.  In both cases the catalogue in memory has that shape and the
    data file holds it; except that a run started on no data file which
    raised before its first save has left no data file and the empty
    default catalogue in memory. *)
Theorem data_file_stays_shaped e urls f :
  f = Absent ∨ (∃ c, f = Holds c ∧ shaped c) →
  ∃ s0 s r,
    init f = Ok s0 ∧ scrape_urls e urls s0 = (s, r) ∧
    (r = Ok (Counters (length urls) 0 0) ∨ r = Raise TypeError) ∧
    shaped (documents s) ∧
    (data_file s = Holds (documents s)
     ∨ f = Absent ∧ data_file s = Absent ∧ documents s = default_catalog).
Proof.
  intros Hf.
  assert (∃ s0, init f = Ok s0 ∧ shaped (documents s0) ∧ data_file s0 = f ∧
                (f = Absent → documents s0 = default_catalog) ∧
                (∀ c, f = Holds c → documents s0 = c))
    as (s0 & Hinit & Hs0 & Hf0 & Habsent & Hholds).
  { destruct Hf as [->|(c & -> & Hc)].
    - destruct (init_fresh Absent) as [out Hinit]; [by left|].
      eexists. split; [done|]. split; [apply shaped_default|]. done.
    - eexists. split; [by apply init_shaped|].
      split; [done|]. split; [done|]. split; [done|]. by intros c' [= <-]. }
  destruct (scrape_urls_in_step e urls s0 Hs0)
    as (s & r & Hrun & Hr & Hs & Hfile).
  exists s0, s, r. split; [done|]. split; [done|]. split; [done|].
  split; [done|].
  destruct Hfile as [Hfile|[Hdocs Hfile]]; [by left|].
  destruct Hf as [->|(c & -> & Hc)].
  - right. rewrite Hfile, Hdocs, Hf0, Habsent by done. done.
  - left. rewrite Hfile, Hdocs, Hf0. by rewrite (Hholds c).
Qed.

Lemma data_file_stays_shaped_witness :
  ∃ s0 s r,
    init (Holds Sample.earlier) = Ok s0 ∧
    scrape_urls Sample.retitled (Sample.urls25 ++ [Sample.url_rerum_la]) s0
    = (s, r) ∧
    (r = Ok (Counters (length (Sample.urls25 ++ [Sample.url_rerum_la])) 0 0)
     ∨ r = Raise TypeError) ∧
    shaped (documents s) ∧
    (data_file s = Holds (documents s)
     ∨ Holds Sample.earlier = Absent ∧ data_file s = Absent ∧
       documents s = default_catalog).
Proof.
  apply (data_file_stays_shaped Sample.retitled
           (Sample.urls25 ++ [Sample.url_rerum_la]) (Holds Sample.earlier)).
  right. exists Sample.earlier. split; [done|].
  apply shaped_stamped, shaped_with_documents; [apply shaped_default|].
  apply Forall_singleton.
  split; simpl; unfold list_or_absent; vm_compute; eauto.
Defined.

End Pipeline.
